(** * A driver's bookkeeping bot: ledger, conversation machine, dispatch

    Shallow embedding of [main.py].  Texts are sequences of Unicode code
    points, amounts are IEEE-754 binary64 values (Python [float], SQLite
    [REAL]), the three SQL tables are lists of rows in rowid order, and the
    aiogram memory storage is a finite map from user identity to a session
    (state and accumulator).  Every handler is a function from the world
    (database and sessions) to the next world and the replies it sends. *)

From stdpp Require Import gmap.
From Stdlib Require Import ZArith NArith List Bool Lia String Ascii.
From Stdlib Require Import Floats.SpecFloat.
From Stdlib Require Import Sorting.Sorted Sorting.Permutation.
Import ListNotations.

(* ================================================================= *)
(** ** Texts *)

(** A Python [str]: a sequence of code points. *)
Definition char := N.
Definition str := list char.
Bind Scope N_scope with char.

(** ASCII literals of the source, as code points. *)
Definition lit (s : string) : str :=
  List.map N_of_ascii (list_ascii_of_string s).

Definition in_range (lo hi c : N) : bool := ((lo <=? c) && (c <=? hi))%N.

Definition str_eqb (a b : str) : bool := bool_decide (a = b).

(** [str.isspace] of one code point: the characters [str.strip()] removes. *)
Definition isspace (c : char) : bool :=
  (in_range 9 13 c || in_range 28 32 c || (c =? 133) || (c =? 160)
   || (c =? 5760) || in_range 8192 8202 c || (c =? 8232) || (c =? 8233)
   || (c =? 8239) || (c =? 8287) || (c =? 12288))%N.

Fixpoint lstrip (s : str) : str :=
  match s with
  | [] => []
  | c :: s' => if isspace c then lstrip s' else s
  end.

Definition rstrip (s : str) : str := rev (lstrip (rev s)).

(** [text.strip()] *)
Definition strip (s : str) : str := rstrip (lstrip s).

(** [text.replace(old, new)] for a one-character [old]. *)
Definition replace_char (old : char) (new : str) (s : str) : str :=
  flat_map (fun c => if (c =? old)%N then new else [c]) s.

(** [text.split(sep)] for a one-character separator. *)
Fixpoint split_on (sep : char) (s : str) : list str :=
  match s with
  | [] => [[]]
  | c :: s' =>
      if (c =? sep)%N then [] :: split_on sep s'
      else match split_on sep s' with
           | p :: ps => (c :: p) :: ps
           | [] => [[c]]
           end
  end.

(** [text.split(sep, 1)]: the text before the first separator and the rest. *)
Fixpoint split_once (sep : char) (s : str) : str * option str :=
  match s with
  | [] => ([], None)
  | c :: s' =>
      if (c =? sep)%N then ([], Some s')
      else let (a, b) := split_once sep s' in (c :: a, b)
  end.

(** [sub in text] for a one-character [sub]. *)
Definition contains (c : char) (s : str) : bool := existsb (N.eqb c) s.

Fixpoint startswith (p s : str) : bool :=
  match p, s with
  | [], _ => true
  | a :: p', b :: s' => (a =? b)%N && startswith p' s'
  | _ :: _, [] => false
  end.

(** Comparison of TEXT values in SQLite (BINARY collation): UTF-8 bytes
    compare as their code points do. *)
Fixpoint str_compare (a b : str) : comparison :=
  match a, b with
  | [], [] => Eq
  | [], _ :: _ => Lt
  | _ :: _, [] => Gt
  | x :: a', y :: b' =>
      match (x ?= y)%N with
      | Eq => str_compare a' b'
      | o => o
      end
  end.

Definition str_leb (a b : str) : bool :=
  match str_compare a b with Gt => false | _ => true end.
Definition str_ltb (a b : str) : bool :=
  match str_compare a b with Lt => true | _ => false end.

(** Lower case of the 26 ASCII capitals, everything else unchanged. *)
Definition ascii_lower_char (c : char) : char :=
  if in_range 65 90 c then (c + 32)%N else c.
Definition ascii_lower (s : str) : str := List.map ascii_lower_char s.

(** SQLite's built-in [LOWER]: only the ASCII capitals are folded. *)
Definition sqlite_lower (s : str) : str := ascii_lower s.

(** The tables of the Unicode character database that the interpreter
    consults.  They are not part of the repository, and differ between
    Unicode versions, so the model takes them as a parameter; the facts
    about them that a proof needs are stated where they are used. *)
Record unicode := {
  (** [str.upper()] of one code point (full case mapping, may expand) *)
  toupper_full : char -> list char;
  (** [str.isdigit()] of one code point *)
  isdigit : char -> bool;
  (** value of a decimal digit (category Nd): [\d] in [re], digits of [float()] *)
  decimal : char -> option N;
  (** membership in the class [[A-ZА-Я]] compiled with [re.I] *)
  plate_letter : char -> bool
}.

Definition ascii_upper (c : char) : char :=
  if in_range 97 122 c then (c - 32)%N else c.
Definition ascii_digit (c : char) : bool := in_range 48 57 c.
Definition ascii_alpha (c : char) : bool := in_range 65 90 c || in_range 97 122 c.

(** What the proofs below use of the tables; each line is a fact of the
    Unicode database. *)
Record unicode_facts (U : unicode) : Prop := {
  toupper_ascii : forall c, (c < 128)%N -> toupper_full U c = [ascii_upper c];
  toupper_stable : forall c d, In d (toupper_full U c) -> toupper_full U d = [d];
  toupper_space : forall c, isspace c = true -> toupper_full U c = [c];
  toupper_nonspace : forall c, isspace c = false ->
      toupper_full U c <> [] /\ forall d, In d (toupper_full U c) -> isspace d = false;
  isdigit_ascii : forall c, (c < 128)%N -> isdigit U c = ascii_digit c;
  decimal_ascii : forall c, (c < 128)%N ->
      decimal U c = if ascii_digit c then Some (c - 48)%N else None;
  plate_letter_ascii : forall c, (c < 128)%N -> plate_letter U c = ascii_alpha c
}.

(** [text.upper()] *)
Definition upper (U : unicode) (s : str) : str := flat_map (toupper_full U) s.

(* ================================================================= *)
(** ** Amounts: binary64 *)

Definition float := spec_float.
Definition f_zero : float := S754_zero false.
Definition f_add : float -> float -> float := SFadd 53 1024.
Definition f_sub : float -> float -> float := SFsub 53 1024.
Definition f_ltb : float -> float -> bool := SFltb.
Definition f_eqb : float -> float -> bool := SFeqb.

(** The float of a small integer literal. *)
Definition f_of_Z (z : Z) : float := binary_normalize 53 1024 z 0 false.

(** The correctly rounded binary64 of [(-1)^neg * m * 10^e] (what
    [strtod] returns: overflow gives an infinity, underflow a zero). *)
Definition dec_to_float (neg : bool) (m : N) (e : Z) : float :=
  match m with
  | N0 => S754_zero neg
  | Npos p =>
      if (0 <=? e)%Z
      then binary_normalize 53 1024
             (if neg then Z.opp (Zpos p * 10 ^ e) else (Zpos p * 10 ^ e))%Z 0 false
      else match (10 ^ (- e))%Z with
           | Zpos q => SFdiv 53 1024 (S754_finite neg p 0) (S754_finite false q 0)
           | _ => S754_nan
           end
  end.

(** *** [float(text)] *)

(** The ASCII copy that [float()] parses: code points below 127 are kept,
    other white space becomes a space, other decimal digits become ASCII
    digits, anything else becomes a question mark (where the real
    conversion stops copying; either way no number is recognised). *)
Definition to_ascii_decimal (U : unicode) (c : char) : char :=
  if (c <? 127)%N then c
  else if isspace c then 32%N
  else match decimal U c with
       | Some d => (48 + d)%N
       | None => 63%N
       end.

(** Underscores are allowed only between two digits; they are removed.
    [prev] is the previous character of the input. *)
Fixpoint strip_underscores (prev : char) (s : str) : option str :=
  match s with
  | [] => if (prev =? 95)%N then None else Some []
  | c :: s' =>
      if (c =? 95)%N then
        if ascii_digit prev then strip_underscores c s' else None
      else
        if (prev =? 95)%N && negb (ascii_digit c) then None
        else option_map (cons c) (strip_underscores c s')
  end.

(** The C locale's [isspace], which trims the ASCII copy. *)
Definition c_isspace (c : char) : bool := in_range 9 13 c || (c =? 32)%N.

Fixpoint c_lstrip (s : str) : str :=
  match s with
  | [] => []
  | c :: s' => if c_isspace c then c_lstrip s' else s
  end.
Definition c_strip (s : str) : str := rev (c_lstrip (rev (c_lstrip s))).

(** Leading ASCII digits and the rest. *)
Fixpoint span_digits (s : str) : list N * str :=
  match s with
  | [] => ([], [])
  | c :: s' =>
      if ascii_digit c
      then let (ds, r) := span_digits s' in ((c - 48)%N :: ds, r)
      else ([], s)
  end.

Definition digits_value (ds : list N) : N :=
  fold_left (fun acc d => (10 * acc + d)%N) ds 0%N.

(** An optional sign: whether it is a minus, and the rest. *)
Definition take_sign (s : str) : bool * str :=
  match s with
  | 43%N :: r => (false, r)
  | 45%N :: r => (true, r)
  | _ => (false, s)
  end.

(** digits [. digits] [e [sign] digits], all of the text: mantissa and
    decimal exponent. *)
Definition parse_decimal (s : str) : option (N * Z) :=
  let (ip, r1) := span_digits s in
  let (fp, r2) := match r1 with
                  | 46%N :: r => span_digits r
                  | _ => ([], r1)
                  end in
  match ip ++ fp with
  | [] => None
  | ds =>
      let m := digits_value ds in
      let shift := Z.of_nat (List.length fp) in
      match r2 with
      | [] => Some (m, (- shift)%Z)
      | c :: r3 =>
          if (c =? 101)%N || (c =? 69)%N then
            let (eneg, r4) := take_sign r3 in
            match span_digits r4 with
            | (d :: ed, []) =>
                let ev := Z.of_N (digits_value (d :: ed)) in
                Some (m, ((if eneg then - ev else ev) - shift)%Z)
            | _ => None
            end
          else None
      end
  end.

(** "inf", "infinity" and "nan" in any letter case. *)
Definition parse_inf_nan (neg : bool) (s : str) : option float :=
  let l := ascii_lower s in
  if str_eqb l (lit "inf") || str_eqb l (lit "infinity")
  then Some (S754_infinity neg)
  else if str_eqb l (lit "nan") then Some S754_nan
  else None.

(** [float(text)]: [None] stands for [ValueError]. *)
Definition py_float (U : unicode) (text : str) : option float :=
  match strip_underscores 0%N (List.map (to_ascii_decimal U) text) with
  | None => None
  | Some s =>
      let (neg, body) := take_sign (c_strip s) in
      match parse_decimal body with
      | Some (m, e) => Some (dec_to_float neg m e)
      | None => parse_inf_nan neg body
      end
  end.

(** [is_valid_money] and [parse_money] *)
Definition comma_to_period (text : str) : str := replace_char 44 [46%N] text.

Definition is_valid_money (U : unicode) (text : str) : bool :=
  match py_float U (comma_to_period text) with
  | Some v => f_ltb f_zero v
  | None => false
  end.

Definition parse_money (U : unicode) (text : str) : option float :=
  py_float U (comma_to_period text).

(** [normalize_plate] and [PLATE_RE.match] *)
Definition normalize_plate (U : unicode) (text : str) : str :=
  replace_char 32 [] (upper U (strip text)).

Definition re_digit (U : unicode) (c : char) : bool :=
  match decimal U c with Some _ => true | None => false end.

(** [^[A-ZА-Я]{2}\d{4}[A-ZА-Я]{2}$] with [re.I]; [$] also matches just
    before a final line feed. *)
Definition plate_re_match (U : unicode) (s : str) : bool :=
  match s with
  | l1 :: l2 :: d1 :: d2 :: d3 :: d4 :: l3 :: l4 :: rest =>
      plate_letter U l1 && plate_letter U l2
      && re_digit U d1 && re_digit U d2 && re_digit U d3 && re_digit U d4
      && plate_letter U l3 && plate_letter U l4
      && match rest with
         | [] => true
         | [c] => (c =? 10)%N
         | _ => false
         end
  | _ => false
  end.

(* ================================================================= *)
(** ** Dates and times *)

(** The [datetime] module, as far as the program uses it.  Which texts
    [fromisoformat] accepts depends on the interpreter's version, so the
    module is a parameter of the model. *)
Record dtlib := {
  datetime : Type;
  (** [datetime.fromisoformat]; [None] stands for [ValueError] *)
  fromisoformat : str -> option datetime;
  (** [d + timedelta(days=n)]; [None] stands for [OverflowError] *)
  plus_days : datetime -> Z -> option datetime;
  (** [d.isoformat()] *)
  isoformat : datetime -> str
}.

(* ================================================================= *)
(** ** The ledger store *)

Record user_row := {
  user_id : Z;
  tg_first_name : str;
  name : option str;
  nickname : option str;
  car_model : option str;
  car_number : option str;
  lang : str;
  report_period : str;
  registered_at : str
}.

Record income_row := {
  inc_id : Z;
  inc_user : Z;
  inc_amount : float;
  inc_ts : str;
  inc_note : option str
}.

Record expense_row := {
  exp_id : Z;
  exp_user : Z;
  exp_amount : float;
  exp_type : str;
  exp_ts : str;
  exp_note : option str
}.

(** The three tables, each in rowid order, and the two AUTOINCREMENT
    counters. *)
Record db := {
  users : list user_row;
  incomes : list income_row;
  expenses : list expense_row;
  income_seq : Z;
  expense_seq : Z
}.

(** [init_db] on a fresh file. *)
Definition init_db : db :=
  {| users := []; incomes := []; expenses := []; income_seq := 0; expense_seq := 0 |}.

(** The per-conversation accumulator ([state.get_data()]). *)
Record acc := {
  d_name : option str;
  d_nickname : option str;
  d_car_model : option str;
  d_car_number : option str;
  d_exp_amount : option float
}.

Definition empty_acc : acc :=
  {| d_name := None; d_nickname := None; d_car_model := None;
     d_car_number := None; d_exp_amount := None |}.

(** [SELECT 1 FROM users WHERE user_id = ?] *)
Definition user_exists (d : db) (uid : Z) : bool :=
  existsb (fun r => (user_id r =? uid)%Z) (users d).

Definition lookup_user (d : db) (uid : Z) : option user_row :=
  List.find (fun r => (user_id r =? uid)%Z) (users d).

(** A row that [INSERT OR REPLACE] deletes before inserting [new]: it has
    the same primary key, or the same non-null nickname (the UNIQUE column,
    compared byte for byte). *)
Definition conflicts (new r : user_row) : bool :=
  (user_id r =? user_id new)%Z
  || match nickname r, nickname new with
     | Some a, Some b => str_eqb a b
     | _, _ => false
     end.

(** Insertion at the place of the rowid, which is [user_id]. *)
Fixpoint insert_row (r : user_row) (l : list user_row) : list user_row :=
  match l with
  | [] => [r]
  | x :: l' => if (user_id r <? user_id x)%Z then r :: l else x :: insert_row r l'
  end.

(** [save_user]; [now] is the text of [datetime.utcnow().isoformat()]. *)
Definition save_user (d : db) (uid : Z) (first : str) (data : acc) (now : str) : db :=
  let row := {| user_id := uid; tg_first_name := first;
                name := d_name data; nickname := d_nickname data;
                car_model := d_car_model data; car_number := d_car_number data;
                lang := lit "uk"; report_period := lit "weekly";
                registered_at := now |} in
  {| users := insert_row row (List.filter (fun r => negb (conflicts row r)) (users d));
     incomes := incomes d; expenses := expenses d;
     income_seq := income_seq d; expense_seq := expense_seq d |}.

(** [SELECT 1 FROM users WHERE LOWER(nickname)=LOWER(?)] *)
Definition nickname_matches (nick : str) (r : user_row) : bool :=
  match nickname r with
  | Some n => str_eqb (sqlite_lower n) (sqlite_lower nick)
  | None => false
  end.

Definition nickname_exists (d : db) (nick : str) : bool :=
  existsb (nickname_matches nick) (users d).

(** [INSERT INTO incomes (user_id, amount, ts, note) VALUES (?, ?, ?, NULL)] *)
Definition insert_income (d : db) (uid : Z) (amount : float) (ts : str) : db :=
  let i := (income_seq d + 1)%Z in
  {| users := users d;
     incomes := incomes d ++ [{| inc_id := i; inc_user := uid; inc_amount := amount;
                                 inc_ts := ts; inc_note := None |}];
     expenses := expenses d; income_seq := i; expense_seq := expense_seq d |}.

(** [INSERT INTO expenses (user_id, amount, type, ts, note) VALUES (?, ?, ?, ?, NULL)] *)
Definition insert_expense (d : db) (uid : Z) (amount : float) (ty ts : str) : db :=
  let i := (expense_seq d + 1)%Z in
  {| users := users d; incomes := incomes d;
     expenses := expenses d ++ [{| exp_id := i; exp_user := uid; exp_amount := amount;
                                   exp_type := ty; exp_ts := ts; exp_note := None |}];
     income_seq := income_seq d; expense_seq := i |}.

(** [UPDATE users SET lang=? WHERE user_id=?] and the same for
    [report_period]. *)
Definition update_lang (d : db) (uid : Z) (val : str) : db :=
  {| users := List.map (fun r => if (user_id r =? uid)%Z
                                 then {| user_id := user_id r; tg_first_name := tg_first_name r;
                                         name := name r; nickname := nickname r;
                                         car_model := car_model r; car_number := car_number r;
                                         lang := val; report_period := report_period r;
                                         registered_at := registered_at r |}
                                 else r) (users d);
     incomes := incomes d; expenses := expenses d;
     income_seq := income_seq d; expense_seq := expense_seq d |}.

Definition update_report_period (d : db) (uid : Z) (val : str) : db :=
  {| users := List.map (fun r => if (user_id r =? uid)%Z
                                 then {| user_id := user_id r; tg_first_name := tg_first_name r;
                                         name := name r; nickname := nickname r;
                                         car_model := car_model r; car_number := car_number r;
                                         lang := lang r; report_period := val;
                                         registered_at := registered_at r |}
                                 else r) (users d);
     incomes := incomes d; expenses := expenses d;
     income_seq := income_seq d; expense_seq := expense_seq d |}.

(** *** Aggregates *)

Definition is_nan (x : float) : bool :=
  match x with S754_nan => true | _ => false end.

(** A REAL result of SQLite: a NaN is delivered as NULL. *)
Definition sql_real (x : float) : option float :=
  if is_nan x then None else Some x.

(** Left-to-right binary64 addition from zero.  (Recent SQLite and Python
    add a compensation term to this; no statement below depends on how the
    additions are rounded.) *)
Definition add_all (l : list float) : float := fold_left f_add l f_zero.

(** [COALESCE(SUM(amount),0)] over the non-null values [l]. *)
Definition coalesce_sum (l : list float) : float :=
  match l with
  | [] => f_zero
  | _ => match sql_real (add_all l) with
         | Some s => s
         | None => f_zero
         end
  end.

(** Python's [x or 0.0] on a float. *)
Definition or_zero (x : float) : float := if f_eqb x f_zero then f_zero else x.

(** Python's [sum(...)] of floats. *)
Definition py_sum (l : list float) : float := add_all l.

Definition incomes_of (d : db) (uid : Z) : list income_row :=
  List.filter (fun r => (inc_user r =? uid)%Z) (incomes d).
Definition expenses_of (d : db) (uid : Z) : list expense_row :=
  List.filter (fun r => (exp_user r =? uid)%Z) (expenses d).

(** [get_balance]: a [datetime] is never false, so [if since] tests for
    [None] only; the bound of the window is the text [since.isoformat()]. *)
Definition get_balance (D : dtlib) (d : db) (uid : Z) (since : option (datetime D))
    : float * float * float :=
  let keep_i := match since with
                | Some t =>
                    let ts := isoformat D t in
                    List.filter (fun r => str_leb ts (inc_ts r)) (incomes_of d uid)
                | None => incomes_of d uid
                end in
  let keep_e := match since with
                | Some t =>
                    let ts := isoformat D t in
                    List.filter (fun r => str_leb ts (exp_ts r)) (expenses_of d uid)
                | None => expenses_of d uid
                end in
  let total_in := or_zero (coalesce_sum (List.map inc_amount keep_i)) in
  let total_ex := or_zero (coalesce_sum (List.map exp_amount keep_e)) in
  (total_in, total_ex, f_sub total_in total_ex).

(** The rows of [users u LEFT JOIN incomes i ... LEFT JOIN expenses e ...]
    for one user: the pairs ([i.amount], [e.amount]), NULL where a table
    has no row of the user. *)
Definition joined_amounts (d : db) (uid : Z) : list (option float * option float) :=
  let lefts := match incomes_of d uid with
            | [] => [None]
            | l => List.map (fun r => Some (inc_amount r)) l
            end in
  let rights := match expenses_of d uid with
            | [] => [None]
            | l => List.map (fun r => Some (exp_amount r)) l
            end in
  flat_map (fun i => List.map (fun e => (i, e)) rights) lefts.

Definition non_null (l : list (option float)) : list float :=
  flat_map (fun o => match o with Some x => [x] | None => [] end) l.

(** [COALESCE(SUM(i.amount),0) - COALESCE(SUM(e.amount),0)] of one group. *)
Definition group_balance (d : db) (uid : Z) : option float :=
  let j := joined_amounts d uid in
  sql_real (f_sub (coalesce_sum (non_null (List.map fst j)))
                  (coalesce_sum (non_null (List.map snd j)))).

Definition top_row : Type := option str * option str * option float.

(** [a > b] in SQLite's order of values, where NULL is below every number. *)
Definition bal_gtb (a b : option float) : bool :=
  match a, b with
  | Some x, Some y => SFltb y x
  | Some _, None => true
  | None, _ => false
  end.

(** [ORDER BY balance DESC]; rows of equal balance keep the order of the
    scan (SQLite promises no order between them). *)
Fixpoint insert_desc (r : top_row) (l : list top_row) : list top_row :=
  match l with
  | [] => [r]
  | x :: l' => if bal_gtb (snd x) (snd r) then x :: insert_desc r l' else r :: l
  end.

Definition order_by_balance_desc (l : list top_row) : list top_row :=
  fold_right insert_desc [] l.

(** [LIMIT ?]: a negative limit is no limit. *)
Definition sql_limit {A} (limit : Z) (l : list A) : list A :=
  if (limit <? 0)%Z then l else firstn (Z.to_nat limit) l.

(** [get_top_drivers] *)
Definition get_top_drivers (d : db) (limit : Z) : list top_row :=
  sql_limit limit
    (order_by_balance_desc
       (List.map (fun u => (nickname u, name u, group_balance d (user_id u))) (users d))).

(** [ORDER BY ts]: rows with equal timestamps keep the order of the scan. *)
Fixpoint insert_by_ts {A} (key : A -> str) (r : A) (l : list A) : list A :=
  match l with
  | [] => [r]
  | x :: l' => if str_leb (key r) (key x) then r :: l else x :: insert_by_ts key r l'
  end.

Definition order_by_ts {A} (key : A -> str) (l : list A) : list A :=
  fold_right (insert_by_ts key) [] l.

(** [SELECT ... FROM incomes WHERE user_id=? AND ts>=? AND ts<? ORDER BY ts] *)
Definition incomes_in_range (d : db) (uid : Z) (from to : str) : list income_row :=
  order_by_ts inc_ts
    (List.filter (fun r => str_leb from (inc_ts r) && str_ltb (inc_ts r) to)
                 (incomes_of d uid)).

Definition expenses_in_range (d : db) (uid : Z) (from to : str) : list expense_row :=
  order_by_ts exp_ts
    (List.filter (fun r => str_leb from (exp_ts r) && str_ltb (exp_ts r) to)
                 (expenses_of d uid)).

(* ================================================================= *)
(** ** The conversation state machine *)

(** The states of the three [StatesGroup]s. *)
Inductive fsm_state :=
| Registration_waiting_for_name
| Registration_waiting_for_nickname
| Registration_waiting_for_car_model
| Registration_waiting_for_car_number
| AddIncome_waiting_for_amount
| AddExpense_waiting_for_amount
| AddExpense_waiting_for_type.

#[global] Instance fsm_state_eq_dec : EqDecision fsm_state.
Proof. solve_decision. Defined.

(** One record of the memory storage: the state ([None] is idle) and the
    accumulator. *)
Record session := { s_state : option fsm_state; s_data : acc }.

Definition default_session : session := {| s_state := None; s_data := empty_acc |}.

(** The world a handler runs in: the database file and the memory storage. *)
Record world := { w_db : db; w_fsm : gmap Z session }.

Definition init_world : world := {| w_db := init_db; w_fsm := ∅ |}.

Definition session_of (w : world) (uid : Z) : session :=
  default default_session (w_fsm w !! uid).

Definition put_session (w : world) (uid : Z) (s : session) : world :=
  {| w_db := w_db w; w_fsm := <[uid := s]> (w_fsm w) |}.

Definition with_db (w : world) (d : db) : world :=
  {| w_db := d; w_fsm := w_fsm w |}.

(** [state.set_state(st)] *)
Definition set_state (w : world) (uid : Z) (st : fsm_state) : world :=
  put_session w uid {| s_state := Some st; s_data := s_data (session_of w uid) |}.

(** [state.update_data(...)] *)
Definition update_data (w : world) (uid : Z) (f : acc -> acc) : world :=
  put_session w uid {| s_state := s_state (session_of w uid);
                       s_data := f (s_data (session_of w uid)) |}.

(** [state.clear()] *)
Definition clear (w : world) (uid : Z) : world := put_session w uid default_session.

Definition set_name (v : str) (a : acc) : acc :=
  {| d_name := Some v; d_nickname := d_nickname a; d_car_model := d_car_model a;
     d_car_number := d_car_number a; d_exp_amount := d_exp_amount a |}.
Definition set_nickname (v : str) (a : acc) : acc :=
  {| d_name := d_name a; d_nickname := Some v; d_car_model := d_car_model a;
     d_car_number := d_car_number a; d_exp_amount := d_exp_amount a |}.
Definition set_car_model (v : str) (a : acc) : acc :=
  {| d_name := d_name a; d_nickname := d_nickname a; d_car_model := Some v;
     d_car_number := d_car_number a; d_exp_amount := d_exp_amount a |}.
Definition set_car_number (v : str) (a : acc) : acc :=
  {| d_name := d_name a; d_nickname := d_nickname a; d_car_model := d_car_model a;
     d_car_number := Some v; d_exp_amount := d_exp_amount a |}.
Definition set_exp_amount (v : float) (a : acc) : acc :=
  {| d_name := d_name a; d_nickname := d_nickname a; d_car_model := d_car_model a;
     d_car_number := d_car_number a; d_exp_amount := Some v |}.

(** What a handler sends: one constructor per message of the source, with
    the values the text is formatted from. *)
Inductive reply :=
| WelcomeBack (first_name : str)
| AskName
| AskNickname
| NicknameTaken
| AskCarModel
| AskCarNumber
| BadPlate
| RegistrationDone
| NotRegistered
| AskIncomeAmount
| BadAmount
| IncomeAdded (amount : float)
| AskExpenseAmount
| AskExpenseType
| AmountNotFound
| ExpenseAdded (amount : float) (ty : str)
| Stats (total day week month : float * float * float)
| AskPeriodStart
| BadPeriodFormat
| BadPeriodDates
| PeriodReport (p0 p1 : str) (ins : list (str * float))
               (outs : list (str * float * str)) (bal : float)
| NotRegisteredYet
| CarCard (name nick model number : option str)
| AskNewName
| AskNewCar
| DeleteMessage
| UnknownAction
| SettingsMenu
| LangSaved
| PeriodChanged
| NoRatingData
| TopDrivers (rows : list (option str * option str * float))
| CallbackAnswered.

(** The labels of the reply keyboard. *)
Definition MENU_INCOME : str :=
  [128229; 32; 1044; 1086; 1076; 1072; 1090; 1080; 32; 1079; 1072; 1088; 1086;
   1073; 1110; 1090; 1086; 1082]%N.
Definition MENU_EXPENSE : str :=
  [128184; 32; 1044; 1086; 1076; 1072; 1090; 1080; 32; 1074; 1080; 1090; 1088;
   1072; 1090; 1080]%N.
Definition MENU_STATS : str :=
  [128202; 32; 1052; 1086; 1103; 32; 1089; 1090; 1072; 1090; 1080; 1089; 1090;
   1080; 1082; 1072]%N.
Definition MENU_PERIOD : str :=
  [128197; 32; 1047; 1074; 1110; 1090; 32; 1079; 1072; 32; 1087; 1077; 1088;
   1110; 1086; 1076]%N.
Definition MENU_TOP : str :=
  [127942; 32; 1058; 1086; 1087; 32; 1074; 1086; 1076; 1110; 1111; 1074]%N.
Definition MENU_CAR : str :=
  [128664; 32; 1052; 1110; 1081; 32; 1072; 1074; 1090; 1086; 1084; 1086; 1073;
   1110; 1083; 1100]%N.
Definition MENU_SETTINGS : str :=
  [9881; 65039; 32; 1053; 1072; 1083; 1072; 1096; 1090; 1091; 1074; 1072; 1085;
   1085; 1103]%N.

(** An update from the chat transport. *)
Inductive event :=
| Message (uid : Z) (first_name : str) (text : str)
| CallbackQuery (uid : Z) (data : str).

Fixpoint take_until_space (s : str) : str :=
  match s with
  | [] => []
  | c :: s' => if isspace c then [] else c :: take_until_space s'
  end.

(** [text.split(maxsplit=1)[0]], empty when the text is blank. *)
Definition first_token (s : str) : str := take_until_space (lstrip s).

Definition is_nil {A} (l : list A) : bool :=
  match l with [] => true | _ => false end.

(** [[p.strip() for p in txt.split(",") if p.strip()]] of the trimmed text. *)
Definition period_parts (text : str) : list str :=
  List.map strip
    (List.filter (fun p => negb (is_nil (strip p))) (split_on 44 (strip text))).

(* ================================================================= *)
(** ** Handlers and dispatch *)

Section Bot.

(** The interpreter's Unicode tables, its [datetime] module, and the test
    aiogram makes of a [/command@mention] against the bot's own name. *)
Variable U : unicode.
Variable D : dtlib.
Variable mention_ok : str -> bool.

(** A handler returns the next world and what it sent.  An exception that
    leaves a handler is the end of that handler: the world and the replies
    are those reached before it. *)
Definition outcome : Type := world * list reply.

Definition cmd_start (w : world) (uid : Z) (first : str) : outcome :=
  let w1 := clear w uid in
  if user_exists (w_db w1) uid
  then (w1, [WelcomeBack first])
  else (set_state w1 uid Registration_waiting_for_name, [AskName]).

Definition process_name (w : world) (uid : Z) (text : str) : outcome :=
  let w1 := update_data w uid (set_name (strip text)) in
  (set_state w1 uid Registration_waiting_for_nickname, [AskNickname]).

Definition process_nickname (w : world) (uid : Z) (text : str) : outcome :=
  let nick := strip text in
  if nickname_exists (w_db w) nick
  then (w, [NicknameTaken])
  else
    let w1 := update_data w uid (set_nickname nick) in
    (set_state w1 uid Registration_waiting_for_car_model, [AskCarModel]).

Definition process_car_model (w : world) (uid : Z) (text : str) : outcome :=
  let w1 := update_data w uid (set_car_model (strip text)) in
  (set_state w1 uid Registration_waiting_for_car_number, [AskCarNumber]).

Definition process_car_number (now : datetime D) (w : world) (uid : Z)
    (first text : str) : outcome :=
  let plate := normalize_plate U text in
  if negb (plate_re_match U plate)
  then (w, [BadPlate])
  else
    let w1 := update_data w uid (set_car_number plate) in
    let data := s_data (session_of w1 uid) in
    let w2 := with_db w1 (save_user (w_db w1) uid first data (isoformat D now)) in
    (clear w2 uid, [RegistrationDone]).

Definition add_income_start (w : world) (uid : Z) : outcome :=
  if negb (user_exists (w_db w) uid)
  then (w, [NotRegistered])
  else (set_state w uid AddIncome_waiting_for_amount, [AskIncomeAmount]).

Definition add_income_amount (now : datetime D) (w : world) (uid : Z)
    (text : str) : outcome :=
  if negb (is_valid_money U text)
  then (w, [BadAmount])
  else
    match parse_money U text with
    | None => (w, [])
    | Some amount =>
        let w1 := with_db w (insert_income (w_db w) uid amount (isoformat D now)) in
        (clear w1 uid, [IncomeAdded amount])
    end.

Definition add_expense_start (w : world) (uid : Z) : outcome :=
  if negb (user_exists (w_db w) uid)
  then (w, [NotRegistered])
  else (set_state w uid AddExpense_waiting_for_amount, [AskExpenseAmount]).

Definition add_expense_amount (w : world) (uid : Z) (text : str) : outcome :=
  if negb (is_valid_money U text)
  then (w, [BadAmount])
  else
    match parse_money U text with
    | None => (w, [])
    | Some amount =>
        let w1 := update_data w uid (set_exp_amount amount) in
        (set_state w1 uid AddExpense_waiting_for_type, [AskExpenseType])
    end.

(** [callback.data.split(":", 1)] is unpacked into two names: a payload
    without a colon raises. *)
Definition exp_type_callback (now : datetime D) (w : world) (uid : Z)
    (data : str) : outcome :=
  match d_exp_amount (s_data (session_of w uid)) with
  | None => (clear w uid, [CallbackAnswered; AmountNotFound])
  | Some amount =>
      match split_once 58 data with
      | (_, None) => (w, [CallbackAnswered])
      | (_, Some type_cb) =>
          let w1 := with_db w (insert_expense (w_db w) uid amount type_cb
                                              (isoformat D now)) in
          (clear w1 uid, [CallbackAnswered; ExpenseAdded amount type_cb])
      end
  end.

Definition my_stats_handler (now : datetime D) (w : world) (uid : Z) : outcome :=
  if negb (user_exists (w_db w) uid)
  then (w, [NotRegistered])
  else
    match plus_days D now (-1), plus_days D now (-7), plus_days D now (-30) with
    | Some day_from, Some week_from, Some month_from =>
        let bal since := get_balance D (w_db w) uid since in
        (w, [Stats (bal None)
                   (bal (Some day_from))
                   (bal (Some week_from))
                   (bal (Some month_from))])
    | _, _, _ => (w, [])
    end.

(** The prompt is sent; the next statement reads an attribute that a
    [State] does not have, so no state is set. *)
Definition report_period_start (w : world) (uid : Z) : outcome :=
  (w, [AskPeriodStart]).

Definition report_period_handler (w : world) (uid : Z) (text : str) : outcome :=
  match period_parts text with
  | [p0; p1] =>
      match fromisoformat D p0 with
      | None => (w, [BadPeriodDates])
      | Some start =>
          match fromisoformat D p1 with
          | None => (w, [BadPeriodDates])
          | Some end0 =>
              match plus_days D end0 1 with
              | None => (w, [BadPeriodDates])
              | Some end_ =>
                  let ins := incomes_in_range (w_db w) uid
                               (isoformat D start) (isoformat D end_) in
                  let outs := expenses_in_range (w_db w) uid
                                (isoformat D start) (isoformat D end_) in
                  let bal := f_sub (py_sum (List.map inc_amount ins))
                                   (py_sum (List.map exp_amount outs)) in
                  (w, [PeriodReport p0 p1
                         (List.map (fun r => (inc_ts r, inc_amount r)) ins)
                         (List.map (fun r => (exp_ts r, exp_amount r, exp_type r)) outs)
                         bal])
              end
          end
      end
  | _ => (w, [BadPeriodFormat])
  end.

Definition my_car_handler (w : world) (uid : Z) : outcome :=
  match lookup_user (w_db w) uid with
  | None => (w, [NotRegisteredYet])
  | Some r => (w, [CarCard (name r) (nickname r) (car_model r) (car_number r)])
  end.

Definition edit_callback (w : world) (uid : Z) (data : str) : outcome :=
  match split_once 58 data with
  | (_, None) => (w, [CallbackAnswered])
  | (_, Some action) =>
      if str_eqb action (lit "name")
      then (set_state w uid Registration_waiting_for_name, [CallbackAnswered; AskNewName])
      else if str_eqb action (lit "car")
      then (set_state w uid Registration_waiting_for_car_model,
            [CallbackAnswered; AskNewCar])
      else if str_eqb action (lit "close")
      then (w, [CallbackAnswered; DeleteMessage])
      else (w, [CallbackAnswered; UnknownAction])
  end.

Definition settings_handler (w : world) (uid : Z) : outcome := (w, [SettingsMenu]).

Definition settings_callback (w : world) (uid : Z) (data : str) : outcome :=
  match split_once 58 data with
  | (_, None) => (w, [CallbackAnswered])
  | (action, Some val) =>
      if str_eqb action (lit "setlang")
      then (with_db w (update_lang (w_db w) uid val), [CallbackAnswered; LangSaved])
      else if str_eqb action (lit "setperiod")
      then (with_db w (update_report_period (w_db w) uid val),
            [CallbackAnswered; PeriodChanged])
      else (w, [CallbackAnswered])
  end.

(** Formatting a NULL balance with [:.2f] raises before anything is sent. *)
Fixpoint top_lines (rows : list top_row) : option (list (option str * option str * float)) :=
  match rows with
  | [] => Some []
  | (nick, nm, Some bal) :: rest => option_map (cons (nick, nm, bal)) (top_lines rest)
  | (_, _, None) :: _ => None
  end.

Definition top_drivers_handler (w : world) (uid : Z) : outcome :=
  match get_top_drivers (w_db w) 10 with
  | [] => (w, [NoRatingData])
  | rows => match top_lines rows with
            | Some ls => (w, [TopDrivers ls])
            | None => (w, [])
            end
  end.

(** *** Filters *)

(** [Command(commands=["start"])]: the first word is [/start], possibly
    with a mention of this bot. *)
Definition is_start_command (text : str) : bool :=
  match first_token text with
  | [] => false
  | prefix :: rest =>
      let (cmd, mention) := split_once 64 rest in
      (prefix =? 47)%N
      && str_eqb cmd (lit "start")
      && match mention with
         | None | Some [] => true
         | Some m => mention_ok m
         end
  end.

(** [lambda m: "," in m.text and m.text[0].isdigit()] *)
Definition looks_like_period (text : str) : bool :=
  contains 44 text
  && match text with
     | c :: _ => isdigit U c
     | [] => false
     end.

Definition in_state (w : world) (uid : Z) (st : fsm_state) : bool :=
  bool_decide (s_state (session_of w uid) = Some st).

(** *** Dispatch: the first registered handler whose filter passes *)

Definition dispatch_message (now : datetime D) (w : world) (uid : Z)
    (first text : str) : outcome :=
  if is_start_command text then cmd_start w uid first
  else if in_state w uid Registration_waiting_for_name then process_name w uid text
  else if in_state w uid Registration_waiting_for_nickname then process_nickname w uid text
  else if in_state w uid Registration_waiting_for_car_model then process_car_model w uid text
  else if in_state w uid Registration_waiting_for_car_number
       then process_car_number now w uid first text
  else if str_eqb text MENU_INCOME then add_income_start w uid
  else if in_state w uid AddIncome_waiting_for_amount then add_income_amount now w uid text
  else if str_eqb text MENU_EXPENSE then add_expense_start w uid
  else if in_state w uid AddExpense_waiting_for_amount then add_expense_amount w uid text
  else if str_eqb text MENU_STATS then my_stats_handler now w uid
  else if looks_like_period text then report_period_handler w uid text
  else if str_eqb text MENU_PERIOD then report_period_start w uid
  else if str_eqb text MENU_TOP then top_drivers_handler w uid
  else if str_eqb text MENU_CAR then my_car_handler w uid
  else if str_eqb text MENU_SETTINGS then settings_handler w uid
  else (w, []).

Definition dispatch_callback (now : datetime D) (w : world) (uid : Z)
    (data : str) : outcome :=
  if startswith (lit "exp_type:") data then exp_type_callback now w uid data
  else if startswith (lit "edit:") data then edit_callback w uid data
  else if startswith (lit "set") data then settings_callback w uid data
  else (w, []).

(** One update, handled at time [now]. *)
Definition step (now : datetime D) (w : world) (ev : event) : outcome :=
  match ev with
  | Message uid first text => dispatch_message now w uid first text
  | CallbackQuery uid data => dispatch_callback now w uid data
  end.

(** A run of updates, each with the clock reading at its handling. *)
Fixpoint run (w : world) (evs : list (datetime D * event)) : world :=
  match evs with
  | [] => w
  | (now, ev) :: rest => run (fst (step now w ev)) rest
  end.

(** What the bot sent in answer to each update of a run. *)
Fixpoint transcript (w : world) (evs : list (datetime D * event)) : list (list reply) :=
  match evs with
  | [] => []
  | (now, ev) :: rest => snd (step now w ev) :: transcript (fst (step now w ev)) rest
  end.

(** The worlds the bot can be in. *)
Inductive reachable : world -> Prop :=
| reachable_init : reachable init_world
| reachable_step now w ev : reachable w -> reachable (fst (step now w ev)).

End Bot.

(* ================================================================= *)
(** ** A concrete interpreter, for running the model *)

(** Case, digit and letter tables restricted to ASCII and the basic
    Cyrillic block; other code points are caseless and neither digits nor
    plate letters. *)
Definition toupper0 (c : char) : list char :=
  if in_range 97 122 c then [(c - 32)%N]
  else if in_range 1072 1103 c then [(c - 32)%N]
  else if in_range 1104 1119 c then [(c - 80)%N]
  else [c].

Definition U0 : unicode :=
  {| toupper_full := toupper0;
     isdigit := ascii_digit;
     decimal := fun c => if ascii_digit c then Some (c - 48)%N else None;
     plate_letter := fun c => ascii_alpha c || in_range 1040 1103 c |}.

(** Naive date-times of the proleptic Gregorian calendar. *)
Record naive_datetime := {
  year : Z; month : Z; day : Z;
  hour : Z; minute : Z; second : Z; microsecond : Z
}.

Definition is_leap (y : Z) : bool :=
  (((y mod 4 =? 0) && negb (y mod 100 =? 0)) || (y mod 400 =? 0))%Z.

Definition days_in_month (y m : Z) : Z :=
  if (m =? 2)%Z then (if is_leap y then 29 else 28)%Z
  else if ((m =? 4) || (m =? 6) || (m =? 9) || (m =? 11))%Z then 30%Z
  else 31%Z.

Definition next_day (d : naive_datetime) : naive_datetime :=
  let (y, m, dd, h, mi, s, us) := d in
  if (dd <? days_in_month y m)%Z then Build_naive_datetime y m (dd + 1) h mi s us
  else if (m <? 12)%Z then Build_naive_datetime y (m + 1) 1 h mi s us
  else Build_naive_datetime (y + 1) 1 1 h mi s us.

Definition prev_day (d : naive_datetime) : naive_datetime :=
  let (y, m, dd, h, mi, s, us) := d in
  if (1 <? dd)%Z then Build_naive_datetime y m (dd - 1) h mi s us
  else if (1 <? m)%Z then Build_naive_datetime y (m - 1) (days_in_month y (m - 1)) h mi s us
  else Build_naive_datetime (y - 1) 12 31 h mi s us.

Definition plus_days0 (d : naive_datetime) (n : Z) : option naive_datetime :=
  let r := if (0 <=? n)%Z then Z.iter n next_day d else Z.iter (- n) prev_day d in
  if ((1 <=? year r) && (year r <=? 9999))%Z then Some r else None.

(** [w] decimal digits of [z], zero padded. *)
Fixpoint digits_of (w : nat) (z : Z) : str :=
  match w with
  | O => []
  | S w' => digits_of w' (z / 10) ++ [Z.to_N (48 + z mod 10)]
  end.

Definition isoformat0 (d : naive_datetime) : str :=
  digits_of 4 (year d) ++ lit "-" ++ digits_of 2 (month d) ++ lit "-"
  ++ digits_of 2 (day d) ++ lit "T" ++ digits_of 2 (hour d) ++ lit ":"
  ++ digits_of 2 (minute d) ++ lit ":" ++ digits_of 2 (second d)
  ++ (if (microsecond d =? 0)%Z then [] else lit "." ++ digits_of 6 (microsecond d)).

(** The number written by a text of ASCII digits only. *)
Definition number_of (s : str) : option Z :=
  match span_digits s with
  | (d :: ds, []) => Some (Z.of_N (digits_value (d :: ds)))
  | _ => None
  end.

Definition field (from len : nat) (s : str) : option Z :=
  if (from + len <=? List.length s)%nat
  then number_of (firstn len (skipn from s))
  else None.

Definition valid_date (y m d : Z) : bool :=
  ((1 <=? y) && (y <=? 9999) && (1 <=? m) && (m <=? 12)
   && (1 <=? d) && (d <=? days_in_month y m))%Z.

(** The two shapes every interpreter version reads: [YYYY-MM-DD], and
    [YYYY-MM-DD] followed by any one character and [HH:MM:SS]. *)
Definition fromisoformat0 (s : str) : option naive_datetime :=
  match field 0 4 s, field 5 2 s, field 8 2 s with
  | Some y, Some m, Some d =>
      if negb (str_eqb (firstn 1 (skipn 4 s)) (lit "-")
               && str_eqb (firstn 1 (skipn 7 s)) (lit "-")
               && valid_date y m d)
      then None
      else if (List.length s =? 10)%nat
      then Some (Build_naive_datetime y m d 0 0 0 0)
      else if (List.length s =? 19)%nat
      then match field 11 2 s, field 14 2 s, field 17 2 s with
           | Some h, Some mi, Some sec =>
               if (str_eqb (firstn 1 (skipn 13 s)) (lit ":")
                   && str_eqb (firstn 1 (skipn 16 s)) (lit ":")
                   && (h <? 24) && (mi <? 60) && (sec <? 60))%Z
               then Some (Build_naive_datetime y m d h mi sec 0)
               else None
           | _, _, _ => None
           end
      else None
  | _, _, _ => None
  end.

Definition D0 : dtlib :=
  {| datetime := naive_datetime;
     fromisoformat := fromisoformat0;
     plus_days := plus_days0;
     isoformat := isoformat0 |}.

(** A bot that is never mentioned by name. *)
Definition mention0 (m : str) : bool := false.

(** *** Sample runs *)

Definition at_ (h mi : Z) : naive_datetime := Build_naive_datetime 2025 1 15 h mi 0 0.

(** A driver registers, books two incomes and one expense. *)
Definition ivan_registers : list (naive_datetime * event) :=
  [ (at_ 10 0, Message 1 (lit "Ivan") (lit "/start"));
    (at_ 10 1, Message 1 (lit "Ivan") (lit "Ivan"));
    (at_ 10 2, Message 1 (lit "Ivan") (lit "ivan99"));
    (at_ 10 3, Message 1 (lit "Ivan") (lit "Toyota Corolla"));
    (at_ 10 4, Message 1 (lit "Ivan") (lit "bc1234ab")) ].

Definition ivan_books : list (naive_datetime * event) :=
  [ (at_ 10 5, Message 1 (lit "Ivan") MENU_INCOME);
    (at_ 10 6, Message 1 (lit "Ivan") (lit "100"));
    (at_ 10 7, Message 1 (lit "Ivan") MENU_INCOME);
    (at_ 10 8, Message 1 (lit "Ivan") (lit "50"));
    (at_ 10 9, Message 1 (lit "Ivan") MENU_EXPENSE);
    (at_ 10 10, Message 1 (lit "Ivan") (lit "30"));
    (at_ 10 11, CallbackQuery 1 (lit "exp_type:fuel")) ].

Definition ivan_world : world :=
  run U0 D0 mention0 init_world (ivan_registers ++ ivan_books).

(** The same driver has entered an expense amount and is shown the
    category buttons. *)
Definition ivan_choosing_category : world :=
  run U0 D0 mention0 init_world
    (ivan_registers ++
     [ (at_ 10 5, Message 1 (lit "Ivan") MENU_EXPENSE);
       (at_ 10 6, Message 1 (lit "Ivan") (lit "50.00")) ]).

(** A new user has been asked for a name. *)
Definition anna_asked_name : world :=
  run U0 D0 mention0 init_world [ (at_ 9 0, Message 7 (lit "Anna") (lit "/start")) ].

(** Two users register side by side and choose nicknames that differ only
    in letter case; each passes the nickname step before the other has
    finished. *)
Definition two_registrations : list (naive_datetime * event) :=
  [ (at_ 12 0, Message 1 (lit "Anna") (lit "/start"));
    (at_ 12 1, Message 1 (lit "Anna") (lit "Anna"));
    (at_ 12 2, Message 1 (lit "Anna") (lit "Driver1"));
    (at_ 12 3, Message 2 (lit "Borys") (lit "/start"));
    (at_ 12 4, Message 2 (lit "Borys") (lit "Borys"));
    (at_ 12 5, Message 2 (lit "Borys") (lit "driver1"));
    (at_ 12 6, Message 2 (lit "Borys") (lit "Renault Logan"));
    (at_ 12 7, Message 2 (lit "Borys") (lit "BC1234AB"));
    (at_ 12 8, Message 1 (lit "Anna") (lit "Skoda Octavia"));
    (at_ 12 9, Message 1 (lit "Anna") (lit "AA0001AA")) ].

(* ================================================================= *)
(** ** Notions used in the statements *)

(** A text that does not begin with white space. *)
Definition starts_clean (s : str) : Prop :=
  match s with
  | [] => True
  | c :: _ => isspace c = false
  end.

(** A text that neither begins nor ends with white space. *)
Definition stripped (s : str) : Prop := starts_clean s /\ starts_clean (rev s).

(** A character map that sends no visible character to nothing or to
    white space. *)
Definition keeps_visible (g : char -> list char) : Prop :=
  forall c, isspace c = false ->
            g c <> [] /\ forall d, In d (g c) -> isspace d = false.

(** Zero, a positive number or plus infinity. *)
Definition nonneg (x : float) : bool :=
  match x with
  | S754_zero false | S754_infinity false | S754_finite false _ _ => true
  | _ => false
  end.

(** [x > 0] *)
Definition positive_amount (x : float) : Prop := f_ltb f_zero x = true.

(** Every amount of the ledger is greater than zero. *)
Definition amounts_positive (d : db) : Prop :=
  Forall (fun r => positive_amount (inc_amount r)) (incomes d)
  /\ Forall (fun r => positive_amount (exp_amount r)) (expenses d).

(** Nicknames are kept as the nickname step wrote them, trimmed, and every
    amount is greater than zero: in the tables and in the accumulators. *)
Definition acc_ok (a : acc) : Prop :=
  (forall n, d_nickname a = Some n -> strip n = n)
  /\ (forall x, d_exp_amount a = Some x -> positive_amount x).

Definition sessions_ok (fsm : gmap Z session) : Prop :=
  forall uid s, fsm !! uid = Some s -> acc_ok (s_data s).

Definition users_ok (l : list user_row) : Prop :=
  forall r n, In r l -> nickname r = Some n -> strip n = n.

Definition db_ok (d : db) : Prop := users_ok (users d) /\ amounts_positive d.

Definition world_ok (w : world) : Prop := db_ok (w_db w) /\ sessions_ok (w_fsm w).

(** The payloads of the four buttons under "choose the kind of expense". *)
Definition expense_categories : list str :=
  [lit "fuel"; lit "wash"; lit "repair"; lit "other"].

(** A numeral as the claim C4 describes it: decimal digits with an optional
    fractional part after a period, denoting a number above zero. *)
Definition decimal_numeral (s : str) : bool :=
  let (ip, r1) := span_digits s in
  let (fp, r2) := match r1 with
                  | 46%N :: r => span_digits r
                  | _ => ([], r1)
                  end in
  negb (is_nil (ip ++ fp)) && is_nil r2 && (0 <? digits_value (ip ++ fp))%N.

(** A calendar date written [YYYY-MM-DD]. *)
Definition iso_calendar_date (s : str) : bool :=
  (List.length s =? 10)%nat
  && match fromisoformat0 s with Some _ => true | None => false end.

(** A text as the claim C8 describes the accepted ones: two calendar dates
    with one comma between them (white space around a date is allowed). *)
Definition two_iso_dates (text : str) : bool :=
  match split_on 44 text with
  | [a; b] => iso_calendar_date (strip a) && iso_calendar_date (strip b)
  | _ => false
  end.

(** Rows in the order of their timestamps. *)
Definition by_ts {A} (key : A -> str) (a b : A) : Prop := str_leb (key a) (key b) = true.

(** How often a character occurs in a text. *)
Definition count_char (c : char) (s : str) : nat := count_occ N.eq_dec s c.

(** The leaderboard order: [b] is not above [a]. *)
Definition not_above (a b : top_row) : Prop := bal_gtb (snd b) (snd a) = false.

(** The users table is in the order of its primary key, without
    repetition. *)
Definition users_keyed (l : list user_row) : Prop :=
  StronglySorted (fun a b => (user_id a < user_id b)%Z) l.

(** No two rows hold the same nickname, byte for byte. *)
Definition nicknames_distinct (l : list user_row) : Prop :=
  forall r1 r2 n, In r1 l -> In r2 l ->
                  nickname r1 = Some n -> nickname r2 = Some n -> user_id r1 = user_id r2.

(** Eight characters: two plate letters, four decimal digits, two plate
    letters. *)
Definition plate_shape (U : unicode) (p : str) : Prop :=
  exists l1 l2 d1 d2 d3 d4 l3 l4,
    p = [l1; l2; d1; d2; d3; d4; l3; l4]
    /\ plate_letter U l1 = true /\ plate_letter U l2 = true
    /\ re_digit U d1 = true /\ re_digit U d2 = true
    /\ re_digit U d3 = true /\ re_digit U d4 = true
    /\ plate_letter U l3 = true /\ plate_letter U l4 = true.

(** A plate as the plate step stores it. *)
Definition stored_plate (U : unicode) (p : str) : Prop :=
  plate_shape U p /\ exists text, p = normalize_plate U text.

(** Every stored plate has the property [P]. *)
Definition plates_satisfy (P : str -> Prop) (l : list user_row) : Prop :=
  forall r p, In r l -> car_number r = Some p -> P p.

(** Entry ids grow along each table and stay within the table's counter. *)
Definition entries_numbered (d : db) : Prop :=
  StronglySorted Z.lt (List.map inc_id (incomes d))
  /\ Forall (fun r => (inc_id r <= income_seq d)%Z) (incomes d)
  /\ StronglySorted Z.lt (List.map exp_id (expenses d))
  /\ Forall (fun r => (exp_id r <= expense_seq d)%Z) (expenses d).

(** At the category step the amount is in the accumulator. *)
Definition session_wf (s : session) : Prop :=
  s_state s = Some AddExpense_waiting_for_type -> d_exp_amount (s_data s) <> None.

Definition db_wf (P : str -> Prop) (d : db) : Prop :=
  users_keyed (users d) /\ nicknames_distinct (users d)
  /\ plates_satisfy P (users d) /\ entries_numbered d.

Definition world_wf (P : str -> Prop) (w : world) : Prop :=
  db_wf P (w_db w) /\ forall uid s, w_fsm w !! uid = Some s -> session_wf s.

(** The entry tables of [d'] are those of [d] with at most one row added
    at the end. *)
Definition db_appends (d d' : db) : Prop :=
  exists li le,
    incomes d' = incomes d ++ li /\ expenses d' = expenses d ++ le
    /\ (List.length li + List.length le <= 1)%nat.

(** A users row with another language, or another report period. *)
Definition with_lang (val : str) (r : user_row) : user_row :=
  {| user_id := user_id r; tg_first_name := tg_first_name r; name := name r;
     nickname := nickname r; car_model := car_model r; car_number := car_number r;
     lang := val; report_period := report_period r; registered_at := registered_at r |}.

Definition with_report_period (val : str) (r : user_row) : user_row :=
  {| user_id := user_id r; tg_first_name := tg_first_name r; name := name r;
     nickname := nickname r; car_model := car_model r; car_number := car_number r;
     lang := lang r; report_period := val; registered_at := registered_at r |}.

(** The user who sent an update. *)
Definition sender (ev : event) : Z :=
  match ev with
  | Message uid _ _ => uid
  | CallbackQuery uid _ => uid
  end.

(* ================================================================= *)
(** ** Properties of the ledger store *)

Section Upsert.

Lemma find_insert_row (row : user_row) (l : list user_row) :
  Forall (fun x => user_id x <> user_id row) l ->
  List.find (fun r => (user_id r =? user_id row)%Z) (insert_row row l) = Some row.
Proof.
  induction l as [|x l IH]; intros Hl; simpl.
  - now rewrite Z.eqb_refl.
  - inversion Hl as [|? ? Hx Hl']; subst.
    destruct (user_id row <? user_id x)%Z; simpl.
    + now rewrite Z.eqb_refl.
    + destruct (Z.eqb_spec (user_id x) (user_id row)) as [E|_]; [contradiction|].
      now apply IH.
Qed.

Lemma filter_insert_row (row : user_row) (l : list user_row) :
  Forall (fun x => user_id x <> user_id row) l ->
  List.filter (fun r => (user_id r =? user_id row)%Z) (insert_row row l) = [row].
Proof.
  induction l as [|x l IH]; intros Hl; simpl.
  - now rewrite Z.eqb_refl.
  - inversion Hl as [|? ? Hx Hl']; subst.
    assert (Hnone : List.filter (fun r => (user_id r =? user_id row)%Z) l = []).
    { clear -Hl'. induction Hl' as [|y l Hy _ IH]; simpl; [reflexivity|].
      destruct (Z.eqb_spec (user_id y) (user_id row)); [contradiction|exact IH]. }
    destruct (user_id row <? user_id x)%Z; simpl.
    + rewrite Z.eqb_refl.
      destruct (Z.eqb_spec (user_id x) (user_id row)); [contradiction|].
      now rewrite Hnone.
    + destruct (Z.eqb_spec (user_id x) (user_id row)); [contradiction|].
      now apply IH.
Qed.

Lemma survivors_have_other_ids (row : user_row) (l : list user_row) :
  Forall (fun x => user_id x <> user_id row)
         (List.filter (fun r => negb (conflicts row r)) l).
Proof.
  apply List.Forall_forall. intros x Hx.
  apply List.filter_In in Hx as [_ Hx].
  unfold conflicts in Hx. apply negb_true_iff, orb_false_iff in Hx as [Hx _].
  now apply Z.eqb_neq in Hx.
Qed.

(** C9: [save_user] replaces the whole row.  Whatever the table held
    before, the only row with this user's id afterwards is the one just
    written: first name, name, nickname, car model and car number are those
    of the call (NULL where the accumulator has no value), the language and
    the report period are the column defaults, and the registration time is
    the time of the call.  Nothing of an earlier row survives. *)
Theorem save_user_overwrites_row (d : db) (uid : Z) (first : str) (data : acc) (now : str) :
  let row := {| user_id := uid; tg_first_name := first;
                name := d_name data; nickname := d_nickname data;
                car_model := d_car_model data; car_number := d_car_number data;
                lang := lit "uk"; report_period := lit "weekly";
                registered_at := now |} in
  lookup_user (save_user d uid first data now) uid = Some row
  /\ List.filter (fun r => (user_id r =? uid)%Z) (users (save_user d uid first data now))
     = [row].
Proof.
  intros row. unfold lookup_user, save_user; simpl. fold row.
  pose proof (survivors_have_other_ids row (users d)) as Hs.
  split.
  - exact (find_insert_row row _ Hs).
  - exact (filter_insert_row row _ Hs).
Qed.

End Upsert.

(* ================================================================= *)
(** ** Properties of texts *)

(** Decides goals made of comparisons of a code point with constants. *)
Ltac split_ranges :=
  repeat match goal with
    | |- context [N.leb ?a ?b] => destruct (N.leb_spec a b); try lia
    | |- context [N.eqb ?a ?b] => destruct (N.eqb_spec a b); try lia
    | |- context [N.ltb ?a ?b] => destruct (N.ltb_spec a b); try lia
    end;
  simpl; try reflexivity; try congruence; try lia.

Ltac by_ranges :=
  unfold isspace, c_isspace, ascii_digit, ascii_alpha, ascii_upper,
    ascii_lower_char in *;
  unfold in_range in *;
  split_ranges.

Section Strip.

Lemma lstrip_clean (s : str) : starts_clean (lstrip s).
Proof.
  induction s as [|c s IH]; simpl; [exact I|].
  destruct (isspace c) eqn:E; [exact IH|exact E].
Qed.

Lemma lstrip_id (s : str) : starts_clean s -> lstrip s = s.
Proof. destruct s as [|c s]; simpl; [reflexivity|]. now intros ->. Qed.

Lemma lstrip_snoc (l : str) (c : char) :
  isspace c = false -> lstrip (l ++ [c]) = lstrip l ++ [c].
Proof.
  intros Hc. induction l as [|x l IH]; simpl.
  - now rewrite Hc.
  - destruct (isspace x); [exact IH|reflexivity].
Qed.

Lemma strip_stripped (s : str) : stripped (strip s).
Proof.
  unfold stripped, strip, rstrip. split.
  - pose proof (lstrip_clean s) as Hc.
    destruct (lstrip s) as [|c t]; simpl in *; [exact I|].
    rewrite (lstrip_snoc _ _ Hc), rev_app_distr. simpl. exact Hc.
  - rewrite rev_involutive. apply lstrip_clean.
Qed.

Lemma strip_id (s : str) : stripped s -> strip s = s.
Proof.
  intros [H1 H2]. unfold strip, rstrip.
  rewrite (lstrip_id _ H1), (lstrip_id _ H2). apply rev_involutive.
Qed.

(** [strip] is idempotent. *)
Lemma strip_strip (s : str) : strip (strip s) = strip s.
Proof. apply strip_id, strip_stripped. Qed.

Lemma flat_map_clean (g : char -> list char) (s : str) :
  keeps_visible g -> starts_clean s -> starts_clean (flat_map g s).
Proof.
  intros Hg. destruct s as [|c s]; simpl; [trivial|].
  intros Hc. destruct (Hg c Hc) as [Hne Hall].
  destruct (g c) as [|d t]; [contradiction|]. simpl.
  apply Hall. now left.
Qed.

Lemma rev_flat_map (g : char -> list char) (s : str) :
  rev (flat_map g s) = flat_map (fun c => rev (g c)) (rev s).
Proof.
  induction s as [|c s IH]; simpl; [reflexivity|].
  rewrite rev_app_distr, IH, flat_map_app. simpl. now rewrite app_nil_r.
Qed.

Lemma flat_map_stripped (g : char -> list char) (s : str) :
  keeps_visible g -> stripped s -> stripped (flat_map g s).
Proof.
  intros Hg [H1 H2]. split.
  - now apply flat_map_clean.
  - rewrite rev_flat_map. apply flat_map_clean; [|exact H2].
    intros c Hc. destruct (Hg c Hc) as [Hne Hall]. split.
    + intros E. apply Hne. now rewrite <- (rev_involutive (g c)), E.
    + intros d Hd. apply Hall. now apply in_rev.
Qed.

Lemma flat_map_fixed (g : char -> list char) (s : str) :
  (forall c, In c s -> g c = [c]) -> flat_map g s = s.
Proof.
  induction s as [|c s IH]; intros H; simpl; [reflexivity|].
  rewrite (H c (or_introl eq_refl)). simpl. f_equal.
  apply IH. intros d Hd. apply H. now right.
Qed.

Lemma remove_space_visible : keeps_visible (fun c => if (c =? 32)%N then [] else [c]).
Proof.
  intros c Hc.
  assert (c <> 32%N) as Hne by (intros ->; discriminate).
  apply N.eqb_neq in Hne. rewrite Hne. split; [discriminate|].
  intros d [<-|[]]. exact Hc.
Qed.

Lemma in_remove_space (d : char) (s : str) :
  In d (replace_char 32 [] s) -> In d s /\ d <> 32%N.
Proof.
  unfold replace_char. rewrite in_flat_map. intros (c & Hc & Hd).
  destruct (N.eqb_spec c 32) as [E|E]; [destruct Hd|].
  destruct Hd as [<-|[]]. now split.
Qed.

End Strip.

Section PlateNormalisation.

Variable U : unicode.
Hypothesis HU : unicode_facts U.

Lemma toupper_visible : keeps_visible (toupper_full U).
Proof using HU. intros c Hc. exact (toupper_nonspace U HU c Hc). Qed.

Lemma normalize_plate_stripped (text : str) : stripped (normalize_plate U text).
Proof using HU.
  unfold normalize_plate, replace_char, upper.
  apply flat_map_stripped; [exact remove_space_visible|].
  apply flat_map_stripped; [exact toupper_visible|].
  apply strip_stripped.
Qed.

Lemma normalize_plate_fixed (text : str) :
  normalize_plate U (normalize_plate U text) = normalize_plate U text.
Proof using HU.
  set (r := normalize_plate U text).
  assert (Hin : forall d, In d r -> toupper_full U d = [d] /\ d <> 32%N).
  { intros d Hd. apply in_remove_space in Hd as [Hd Hne]. split; [|exact Hne].
    unfold upper in Hd. apply in_flat_map in Hd as (c & _ & Hd).
    exact (toupper_stable U HU c d Hd). }
  unfold normalize_plate at 1.
  rewrite (strip_id r (normalize_plate_stripped text)).
  unfold upper. rewrite (flat_map_fixed (toupper_full U) r) by (intros; now apply Hin).
  apply flat_map_fixed. intros c Hc.
  destruct (Hin c Hc) as [_ Hne]. apply N.eqb_neq in Hne. now rewrite Hne.
Qed.

Lemma upper_ascii (s : str) :
  Forall (fun c => (c < 128)%N) s -> upper U s = List.map ascii_upper s.
Proof using HU.
  induction 1 as [|c s Hc _ IH]; simpl; [reflexivity|].
  now rewrite (toupper_ascii U HU c Hc), IH.
Qed.

Lemma plate_re_match_ascii (s : str) :
  Forall (fun c => (c < 128)%N) s ->
  plate_re_match U s
  = plate_re_match {| toupper_full := toupper_full U; isdigit := isdigit U;
                      decimal := fun c => if ascii_digit c then Some (c - 48)%N else None;
                      plate_letter := ascii_alpha |} s.
Proof using HU.
  intros Hs. unfold plate_re_match, re_digit.
  repeat (destruct s as [|? s]; [reflexivity|];
          let H := fresh in let H' := fresh in
          inversion Hs as [|? ? H H']; subst; clear Hs; rename H' into Hs).
  simpl.
  repeat rewrite (plate_letter_ascii U HU) by assumption.
  repeat rewrite (decimal_ascii U HU) by assumption.
  reflexivity.
Qed.

(** C5: plate normalisation is idempotent on every text; "bc 1234 ab"
    normalises to "BC1234AB", which the plate pattern accepts, and "BC12AB"
    (its own normal form) is refused. *)
Theorem normalize_plate_idempotent :
  (forall text, normalize_plate U (normalize_plate U text) = normalize_plate U text)
  /\ normalize_plate U (lit "bc 1234 ab") = lit "BC1234AB"
  /\ plate_re_match U (lit "BC1234AB") = true
  /\ normalize_plate U (lit "BC12AB") = lit "BC12AB"
  /\ plate_re_match U (lit "BC12AB") = false.
Proof using HU.
  assert (Hnorm : forall a b, Forall (fun c => (c < 128)%N) (strip (lit a)) ->
            replace_char 32 [] (List.map ascii_upper (strip (lit a))) = lit b ->
            normalize_plate U (lit a) = lit b).
  { intros a b Ha Hb. unfold normalize_plate. now rewrite (upper_ascii _ Ha). }
  split; [exact normalize_plate_fixed|].
  split; [apply Hnorm; [repeat constructor|reflexivity]|].
  split; [rewrite plate_re_match_ascii; [reflexivity|repeat constructor]|].
  split; [apply Hnorm; [repeat constructor|reflexivity]|].
  rewrite plate_re_match_ascii; [reflexivity|repeat constructor].
Qed.

End PlateNormalisation.

(** The tables of [U0] have the properties assumed of the Unicode database. *)
Lemma U0_facts : unicode_facts U0.
Proof.
  constructor; simpl; unfold toupper0.
  - intros c Hc. by_ranges.
  - intros c d. by_ranges; intros [<-|[]]; split_ranges.
  - intros c. by_ranges.
  - intros c Hc. split.
    + by_ranges.
    + revert Hc. by_ranges; intros _ d [<-|[]]; split_ranges.
  - reflexivity.
  - reflexivity.
  - intros c Hc. by_ranges.
Qed.

Lemma normalize_plate_idempotent_witness :
  (forall text, normalize_plate U0 (normalize_plate U0 text) = normalize_plate U0 text)
  /\ normalize_plate U0 (lit "bc 1234 ab") = lit "BC1234AB"
  /\ plate_re_match U0 (lit "BC1234AB") = true
  /\ normalize_plate U0 (lit "BC12AB") = lit "BC12AB"
  /\ plate_re_match U0 (lit "BC12AB") = false.
Proof. exact (normalize_plate_idempotent U0 U0_facts). Defined.

(* ================================================================= *)
(** ** Properties of amounts *)

Section Amounts.

Lemma positive_nonneg (x : float) : positive_amount x -> nonneg x = true.
Proof. destruct x as [[|]|[|]| |[|] m e]; simpl; intros H; try discriminate; reflexivity. Qed.

Lemma iter_pos_preserves {A} (P : A -> Prop) (f : A -> A) :
  (forall x, P x -> P (f x)) -> forall p x, P x -> P (iter_pos f p x).
Proof.
  intros Hf. induction p as [p IH|p IH|]; intros x Hx; simpl.
  - apply IH, IH, Hf, Hx.
  - apply IH, IH, Hx.
  - apply Hf, Hx.
Qed.

Lemma shr_1_nonneg (mrs : shr_record) : (0 <= shr_m mrs)%Z -> (0 <= shr_m (shr_1 mrs))%Z.
Proof.
  destruct mrs as [m r t]. simpl.
  destruct m as [|[p|p|]|[p|p|]]; simpl; lia.
Qed.

Lemma shr_fexp_nonneg (m e : Z) (l : location) :
  (0 <= m)%Z -> (0 <= shr_m (fst (shr_fexp 53 1024 m e l)))%Z.
Proof.
  intros Hm. unfold shr_fexp, shr.
  assert (H0 : (0 <= shr_m (shr_record_of_loc m l))%Z)
    by (destruct l as [|[| |]]; exact Hm).
  destruct (fexp 53 1024 (Zdigits2 m + e) - e)%Z; simpl; try exact H0.
  now apply (iter_pos_preserves (fun x => (0 <= shr_m x)%Z) shr_1 shr_1_nonneg).
Qed.

Lemma round_nearest_even_nonneg (m : Z) (l : location) :
  (0 <= m)%Z -> (0 <= round_nearest_even m l)%Z.
Proof.
  intros Hm. destruct l as [|[| |]]; simpl; try lia.
  destruct (Z.even m); lia.
Qed.

Lemma binary_round_aux_nonneg (m e : Z) (l : location) :
  (0 <= m)%Z -> nonneg (binary_round_aux 53 1024 false m e l) = true.
Proof.
  intros Hm. unfold binary_round_aux.
  pose proof (shr_fexp_nonneg m e l Hm) as H1.
  destruct (shr_fexp 53 1024 m e l) as [mrs' e']. simpl in H1.
  pose proof (shr_fexp_nonneg _ e' loc_Exact
                (round_nearest_even_nonneg _ (loc_of_shr_record mrs') H1)) as H2.
  destruct (shr_fexp 53 1024 _ e' loc_Exact) as [mrs'' e'']. simpl in H2.
  destruct (shr_m mrs'') as [|q|q]; [reflexivity| |lia].
  destruct (e'' <=? 1024 - 53)%Z; reflexivity.
Qed.

Lemma f_add_nonneg (x y : float) :
  nonneg x = true -> nonneg y = true -> nonneg (f_add x y) = true.
Proof.
  destruct x as [[|]|[|]| |[|] mx ex]; try discriminate;
    destruct y as [[|]|[|]| |[|] my ey]; try discriminate; intros _ _;
    try reflexivity.
  unfold f_add, SFadd, binary_normalize. simpl cond_Zopp.
  rewrite <- Pos2Z.inj_add. unfold binary_round.
  destruct (shl_align _ _ _) as [mz ez]. now apply binary_round_aux_nonneg.
Qed.

Lemma add_all_nonneg (l : list float) :
  Forall (fun x => nonneg x = true) l -> nonneg (add_all l) = true.
Proof.
  unfold add_all. generalize f_zero (eq_refl : nonneg f_zero = true).
  induction l as [|x l IH]; intros a Ha Hl; simpl; [exact Ha|].
  inversion Hl; subst. apply IH; [|assumption]. now apply f_add_nonneg.
Qed.

(** On amounts that are not negative, the two defaults of the source
    ([COALESCE(...,0)] and [or 0.0]) change nothing: the total is the
    plain sum. *)
Lemma total_is_plain_sum (l : list float) :
  Forall (fun x => nonneg x = true) l -> or_zero (coalesce_sum l) = add_all l.
Proof.
  intros Hl. pose proof (add_all_nonneg l Hl) as Hs.
  unfold coalesce_sum, sql_real.
  destruct l as [|x l]; [reflexivity|].
  destruct (add_all (x :: l)) as [[|]|[|]| |[|] m e]; try discriminate; reflexivity.
Qed.

End Amounts.

(* ================================================================= *)
(** ** Balances *)

Section Balance.

Lemma filter_all {A} (f : A -> bool) (l : list A) :
  (forall x, In x l -> f x = true) -> List.filter f l = l.
Proof.
  induction l as [|x l IH]; intros H; simpl; [reflexivity|].
  rewrite (H x (or_introl eq_refl)). f_equal. apply IH. intros y Hy. apply H. now right.
Qed.

Lemma incomes_of_spec (d : db) (uid : Z) (r : income_row) :
  In r (incomes_of d uid) <-> In r (incomes d) /\ inc_user r = uid.
Proof. unfold incomes_of. rewrite List.filter_In, Z.eqb_eq. reflexivity. Qed.

Lemma expenses_of_spec (d : db) (uid : Z) (r : expense_row) :
  In r (expenses_of d uid) <-> In r (expenses d) /\ exp_user r = uid.
Proof. unfold expenses_of. rewrite List.filter_In, Z.eqb_eq. reflexivity. Qed.

Lemma nonneg_amounts_of_incomes (d : db) (uid : Z) :
  amounts_positive d ->
  Forall (fun x => nonneg x = true) (List.map inc_amount (incomes_of d uid)).
Proof.
  intros [Hi _]. apply List.Forall_forall. intros x Hx.
  apply List.in_map_iff in Hx as (r & <- & Hr). apply positive_nonneg.
  apply incomes_of_spec in Hr as [Hr _].
  exact (proj1 (List.Forall_forall _ _) Hi r Hr).
Qed.

Lemma nonneg_amounts_of_expenses (d : db) (uid : Z) :
  amounts_positive d ->
  Forall (fun x => nonneg x = true) (List.map exp_amount (expenses_of d uid)).
Proof.
  intros [_ He]. apply List.Forall_forall. intros x Hx.
  apply List.in_map_iff in Hx as (r & <- & Hr). apply positive_nonneg.
  apply expenses_of_spec in Hr as [Hr _].
  exact (proj1 (List.Forall_forall _ _) He r Hr).
Qed.

(** C7: for every user and every window, [get_balance] returns the two
    totals and their difference, computed from exactly these two totals; a
    window that starts no later than all of the user's entries gives the
    same result as no window; and without a window, on a ledger whose
    amounts are positive, the totals are the sums of the amounts of all
    income rows and of all expense rows of that user. *)
Theorem get_balance_identity (D : dtlib) (d : db) (uid : Z) (since : option (datetime D)) :
  (let '(total_in, total_ex, net) := get_balance D d uid since in
   net = f_sub total_in total_ex)
  /\ (forall t,
        since = Some t ->
        (forall r, In r (incomes d) -> inc_user r = uid ->
                   str_leb (isoformat D t) (inc_ts r) = true) ->
        (forall r, In r (expenses d) -> exp_user r = uid ->
                   str_leb (isoformat D t) (exp_ts r) = true) ->
        get_balance D d uid since = get_balance D d uid None)
  /\ (amounts_positive d ->
      get_balance D d uid None
      = (add_all (List.map inc_amount (incomes_of d uid)),
         add_all (List.map exp_amount (expenses_of d uid)),
         f_sub (add_all (List.map inc_amount (incomes_of d uid)))
               (add_all (List.map exp_amount (expenses_of d uid))))).
Proof.
  split; [reflexivity|]. split.
  - intros t -> Hi He. unfold get_balance.
    rewrite (filter_all (fun r => str_leb (isoformat D t) (inc_ts r)) (incomes_of d uid)).
    2:{ intros r Hr. apply incomes_of_spec in Hr as [Hr Hu]. now apply Hi. }
    rewrite (filter_all (fun r => str_leb (isoformat D t) (exp_ts r)) (expenses_of d uid)).
    2:{ intros r Hr. apply expenses_of_spec in Hr as [Hr Hu]. now apply He. }
    reflexivity.
  - intros Hpos. unfold get_balance.
    rewrite (total_is_plain_sum _ (nonneg_amounts_of_incomes d uid Hpos)).
    rewrite (total_is_plain_sum _ (nonneg_amounts_of_expenses d uid Hpos)).
    reflexivity.
Qed.

End Balance.

(* ================================================================= *)
(** ** What holds in every world the bot can reach *)

Section Invariant.

Lemma empty_acc_ok : acc_ok empty_acc.
Proof. split; intros ? H; discriminate H. Qed.

Lemma session_of_ok (w : world) (uid : Z) :
  world_ok w -> acc_ok (s_data (session_of w uid)).
Proof.
  intros [_ Hs]. unfold session_of.
  destruct (w_fsm w !! uid) as [s|] eqn:E; simpl.
  - exact (Hs uid s E).
  - exact empty_acc_ok.
Qed.

Lemma put_session_ok (w : world) (uid : Z) (s : session) :
  world_ok w -> acc_ok (s_data s) -> world_ok (put_session w uid s).
Proof.
  intros [Hd Hs] Ha. split; [exact Hd|]. simpl.
  intros u s' Hu. destruct (decide (uid = u)) as [->|Hne].
  - rewrite lookup_insert_eq in Hu. now inversion Hu; subst.
  - rewrite lookup_insert_ne in Hu by exact Hne. exact (Hs u s' Hu).
Qed.

Lemma set_state_ok (w : world) (uid : Z) (st : fsm_state) :
  world_ok w -> world_ok (set_state w uid st).
Proof. intros H. apply put_session_ok; [exact H|]. simpl. now apply session_of_ok. Qed.

Lemma clear_ok (w : world) (uid : Z) : world_ok w -> world_ok (clear w uid).
Proof. intros H. apply put_session_ok; [exact H|exact empty_acc_ok]. Qed.

Lemma update_data_ok (w : world) (uid : Z) (f : acc -> acc) :
  world_ok w -> (forall a, acc_ok a -> acc_ok (f a)) -> world_ok (update_data w uid f).
Proof.
  intros H Hf. apply put_session_ok; [exact H|]. simpl. now apply Hf, session_of_ok.
Qed.

Lemma with_db_ok (w : world) (d : db) : world_ok w -> db_ok d -> world_ok (with_db w d).
Proof. intros [_ Hs] Hd. split; assumption. Qed.

Lemma set_name_ok (v : str) (a : acc) : acc_ok a -> acc_ok (set_name v a).
Proof. intros [H1 H2]. split; assumption. Qed.

Lemma set_car_model_ok (v : str) (a : acc) : acc_ok a -> acc_ok (set_car_model v a).
Proof. intros [H1 H2]. split; assumption. Qed.

Lemma set_car_number_ok (v : str) (a : acc) : acc_ok a -> acc_ok (set_car_number v a).
Proof. intros [H1 H2]. split; assumption. Qed.

Lemma set_nickname_ok (text : str) (a : acc) : acc_ok a -> acc_ok (set_nickname (strip text) a).
Proof.
  intros [H1 H2]. split; [|exact H2].
  simpl. intros n [= <-]. apply strip_strip.
Qed.

Lemma set_exp_amount_ok (v : float) (a : acc) :
  positive_amount v -> acc_ok a -> acc_ok (set_exp_amount v a).
Proof.
  intros Hv [H1 H2]. split; [exact H1|].
  simpl. intros x [= <-]. exact Hv.
Qed.

Lemma in_insert_row (row x : user_row) (l : list user_row) :
  In x (insert_row row l) -> x = row \/ In x l.
Proof.
  induction l as [|y l IH]; simpl.
  - intros [<-|[]]. now left.
  - destruct (user_id row <? user_id y)%Z; simpl.
    + intros [<-|H]; [now left|now right].
    + intros [<-|H]; [right; now left|].
      destruct (IH H) as [->|H']; [now left|right; now right].
Qed.

Lemma save_user_ok (d : db) (uid : Z) (first : str) (data : acc) (now : str) :
  db_ok d -> acc_ok data -> db_ok (save_user d uid first data now).
Proof.
  intros [Hu Ha] [Hn _]. split; [|exact Ha].
  intros r n Hr Hrn. simpl in Hr. apply in_insert_row in Hr as [->|Hr].
  - simpl in Hrn. now apply Hn.
  - apply List.filter_In in Hr as [Hr _]. exact (Hu r n Hr Hrn).
Qed.

Lemma insert_income_ok (d : db) (uid : Z) (amount : float) (ts : str) :
  db_ok d -> positive_amount amount -> db_ok (insert_income d uid amount ts).
Proof.
  intros [Hu [Hi He]] Hp. split; [exact Hu|]. split; [|exact He].
  simpl. apply List.Forall_app. split; [exact Hi|]. now constructor.
Qed.

Lemma insert_expense_ok (d : db) (uid : Z) (amount : float) (ty ts : str) :
  db_ok d -> positive_amount amount -> db_ok (insert_expense d uid amount ty ts).
Proof.
  intros [Hu [Hi He]] Hp. split; [exact Hu|]. split; [exact Hi|].
  simpl. apply List.Forall_app. split; [exact He|]. now constructor.
Qed.

Lemma update_lang_ok (d : db) (uid : Z) (val : str) : db_ok d -> db_ok (update_lang d uid val).
Proof.
  intros [Hu Ha]. split; [|exact Ha].
  intros r n Hr Hrn. simpl in Hr. apply List.in_map_iff in Hr as (r0 & <- & Hr0).
  destruct (user_id r0 =? uid)%Z; exact (Hu r0 n Hr0 Hrn).
Qed.

Lemma update_report_period_ok (d : db) (uid : Z) (val : str) :
  db_ok d -> db_ok (update_report_period d uid val).
Proof.
  intros [Hu Ha]. split; [|exact Ha].
  intros r n Hr Hrn. simpl in Hr. apply List.in_map_iff in Hr as (r0 & <- & Hr0).
  destruct (user_id r0 =? uid)%Z; exact (Hu r0 n Hr0 Hrn).
Qed.

(** An accepted amount parses, and to a number greater than zero. *)
Lemma valid_money_parses (U : unicode) (text : str) :
  is_valid_money U text = true ->
  exists v, parse_money U text = Some v /\ positive_amount v.
Proof.
  unfold is_valid_money, parse_money.
  destruct (py_float U (comma_to_period text)) as [v|]; [|discriminate].
  intros Hv. now exists v.
Qed.

Variable U : unicode.
Variable D : dtlib.
Variable mention_ok : str -> bool.

Create HintDb bot_inv.

#[local] Hint Resolve set_state_ok clear_ok with_db_ok save_user_ok insert_income_ok
  insert_expense_ok update_lang_ok update_report_period_ok session_of_ok
  set_name_ok set_car_model_ok set_car_number_ok set_nickname_ok set_exp_amount_ok
  update_data_ok : bot_inv.

Lemma step_ok (now : datetime D) (w : world) (ev : event) :
  world_ok w -> world_ok (fst (step U D mention_ok now w ev)).
Proof.
  intros Hw. destruct ev as [uid first text|uid data]; simpl.
  - unfold dispatch_message.
    repeat match goal with
           | |- context [if ?b then _ else _] => destruct b eqn:?
           end; simpl; try exact Hw.
    + unfold cmd_start. destruct (user_exists _ _); simpl; auto with bot_inv.
    + unfold process_name; simpl. auto 6 with bot_inv.
    + unfold process_nickname. destruct (nickname_exists _ _); simpl; auto 6 with bot_inv.
    + unfold process_car_model; simpl. auto 6 with bot_inv.
    + unfold process_car_number. destruct (negb _); simpl; [exact Hw|].
      apply clear_ok, with_db_ok; [auto 6 with bot_inv|].
      apply save_user_ok; [|apply session_of_ok; auto 6 with bot_inv].
      simpl. apply Hw.
    + unfold add_income_start. destruct (negb _); simpl; auto with bot_inv.
    + unfold add_income_amount. destruct (is_valid_money U text) eqn:Hv; simpl; [|exact Hw].
      destruct (valid_money_parses U text Hv) as (v & -> & Hpos). simpl.
      apply clear_ok, with_db_ok; [exact Hw|]. apply insert_income_ok; [apply Hw|exact Hpos].
    + unfold add_expense_start. destruct (negb _); simpl; auto with bot_inv.
    + unfold add_expense_amount. destruct (is_valid_money U text) eqn:Hv; simpl; [|exact Hw].
      destruct (valid_money_parses U text Hv) as (v & -> & Hpos). simpl.
      auto 6 with bot_inv.
    + unfold my_stats_handler. destruct (negb _); simpl; [exact Hw|].
      destruct (plus_days D now (-1)), (plus_days D now (-7)), (plus_days D now (-30));
        exact Hw.
    + unfold report_period_handler.
      repeat match goal with
             | |- context [match ?x with _ => _ end] => destruct x
             end; exact Hw.
    + unfold top_drivers_handler.
      destruct (get_top_drivers _ _); [exact Hw|]. destruct (top_lines _); exact Hw.
    + unfold my_car_handler. destruct (lookup_user _ _); exact Hw.
  - unfold dispatch_callback.
    repeat match goal with
           | |- context [if ?b then _ else _] => destruct b eqn:?
           end; simpl; try exact Hw.
    + unfold exp_type_callback.
      pose proof (session_of_ok w uid Hw) as [_ Hx].
      destruct (d_exp_amount (s_data (session_of w uid))) as [a|] eqn:Ea; simpl;
        [|auto with bot_inv].
      destruct (split_once 58 data) as [? [ty|]]; simpl; [|exact Hw].
      apply clear_ok, with_db_ok; [exact Hw|].
      apply insert_expense_ok; [apply Hw|now apply Hx].
    + unfold edit_callback.
      destruct (split_once 58 data) as [? [action|]]; simpl; [|exact Hw].
      repeat match goal with
             | |- context [if ?b then _ else _] => destruct b
             end; simpl; auto with bot_inv.
    + unfold settings_callback.
      destruct (split_once 58 data) as [action [val|]]; simpl; [|exact Hw].
      repeat match goal with
             | |- context [if ?b then _ else _] => destruct b
             end; simpl; try exact Hw;
        apply with_db_ok; auto with bot_inv; [apply update_lang_ok|apply update_report_period_ok];
        apply Hw.
Qed.

Lemma init_world_ok : world_ok init_world.
Proof.
  split; [split|].
  - intros r n [].
  - split; constructor.
  - intros uid s Hs. simpl in Hs. rewrite lookup_empty in Hs. discriminate.
Qed.

Lemma reachable_ok (w : world) : reachable U D mention_ok w -> world_ok w.
Proof. induction 1 as [|now w ev _ IH]; [exact init_world_ok|now apply step_ok]. Qed.

Lemma reachable_run (w : world) (evs : list (datetime D * event)) :
  reachable U D mention_ok w -> reachable U D mention_ok (run U D mention_ok w evs).
Proof.
  revert w. induction evs as [|[now ev] evs IH]; intros w Hw; simpl; [exact Hw|].
  apply IH. now constructor.
Qed.

End Invariant.

(* ================================================================= *)
(** ** The leaderboard *)

Section Leaderboard.

(** C1 (the code departs from the claim): on a ledger where one driver has
    the incomes 100 and 50 and the expense 30, [get_top_drivers] reports the
    net balance 90, while [get_balance] over all time returns the incomes
    150, the expenses 30 and the net balance 120.  The two joins pair every
    income row with every expense row, so each amount is added once per row
    of the other table. *)
Theorem top_drivers_counts_joined_rows :
  List.map inc_amount (incomes (w_db ivan_world)) = [f_of_Z 100; f_of_Z 50]
  /\ List.map exp_amount (expenses (w_db ivan_world)) = [f_of_Z 30]
  /\ get_top_drivers (w_db ivan_world) 10
     = [(Some (lit "ivan99"), Some (lit "Ivan"), Some (f_of_Z 90))]
  /\ get_balance D0 (w_db ivan_world) 1 None = (f_of_Z 150, f_of_Z 30, f_of_Z 120).
Proof. vm_compute. repeat split. Qed.

End Leaderboard.

(* ================================================================= *)
(** ** Nicknames *)

Section Nicknames.

Lemma str_eqb_true (a b : str) : str_eqb a b = true <-> a = b.
Proof. unfold str_eqb. apply bool_decide_eq_true. Qed.

Lemma str_eqb_false (a b : str) : str_eqb a b = false <-> a <> b.
Proof. unfold str_eqb. apply bool_decide_eq_false. Qed.

(** The nickname step refuses every text that, once trimmed, equals the
    nickname of a stored user up to the case of ASCII letters; the world
    stays as it was. *)
Lemma nickname_step_rejects (w : world) (uid : Z) (text : str) (r : user_row) (n : str) :
  In r (users (w_db w)) -> nickname r = Some n ->
  sqlite_lower (strip text) = sqlite_lower n ->
  process_nickname w uid text = (w, [NicknameTaken]).
Proof.
  intros Hr Hn Heq. unfold process_nickname.
  assert (nickname_exists (w_db w) (strip text) = true) as ->; [|reflexivity].
  unfold nickname_exists. apply existsb_exists. exists r. split; [exact Hr|].
  unfold nickname_matches. rewrite Hn. now apply str_eqb_true.
Qed.

Lemma session_of_put (w : world) (uid : Z) (s : session) :
  session_of (put_session w uid s) uid = s.
Proof. unfold session_of, put_session. simpl. now rewrite lookup_insert_eq. Qed.

Lemma lookup_user_in (d : db) (uid : Z) (r : user_row) :
  lookup_user d uid = Some r -> In r (users d) /\ user_id r = uid.
Proof.
  unfold lookup_user. intros H. apply List.find_some in H as [H1 H2].
  split; [exact H1|now apply Z.eqb_eq].
Qed.

(** C6 (the code departs from the claim): two users who register side by
    side both pass the nickname step, one with "Driver1" and one with
    "driver1", because neither nickname is stored until its owner finishes
    the plate step; the UNIQUE column compares byte for byte, so both rows
    are kept.  Afterwards the table holds two nicknames that are equal up
    to case. *)
Theorem nicknames_equal_up_to_case_stored :
  let w := run U0 D0 mention0 init_world two_registrations in
  nth 2 (transcript U0 D0 mention0 init_world two_registrations) [] = [AskCarModel]
  /\ nth 5 (transcript U0 D0 mention0 init_world two_registrations) [] = [AskCarModel]
  /\ List.map (fun r => (user_id r, nickname r)) (users (w_db w))
     = [(1%Z, Some (lit "Driver1")); (2%Z, Some (lit "driver1"))]
  /\ sqlite_lower (lit "Driver1") = sqlite_lower (lit "driver1").
Proof. vm_compute. repeat split. Qed.

Variable U : unicode.
Variable D : dtlib.
Variable mention_ok : str -> bool.

Lemma edit_name_enters_registration (now : datetime D) (w : world) (uid : Z) :
  step U D mention_ok now w (CallbackQuery uid (lit "edit:name"))
  = (set_state w uid Registration_waiting_for_name, [CallbackAnswered; AskNewName]).
Proof. reflexivity. Qed.

(** C10: in every world the bot can reach, a registered user who sends
    their own stored nickname at the nickname step is told that it is
    taken, and nothing changes.  So after the button "edit:name" has put
    the user back at the name step and a new name has been given, the user
    is at the nickname step, where the stored nickname, in any ASCII letter
    case and with any surrounding white space, is refused again. *)
Theorem own_nickname_is_taken (w : world) (uid : Z) (r : user_row) (n : str) :
  reachable U D mention_ok w ->
  lookup_user (w_db w) uid = Some r ->
  nickname r = Some n ->
  process_nickname w uid n = (w, [NicknameTaken])
  /\ forall now new_name,
       let w1 := fst (step U D mention_ok now w (CallbackQuery uid (lit "edit:name"))) in
       let w2 := fst (process_name w1 uid new_name) in
       s_state (session_of w1 uid) = Some Registration_waiting_for_name
       /\ s_state (session_of w2 uid) = Some Registration_waiting_for_nickname
       /\ forall text, sqlite_lower (strip text) = sqlite_lower n ->
                       process_nickname w2 uid text = (w2, [NicknameTaken]).
Proof.
  intros Hreach Hlook Hn.
  apply lookup_user_in in Hlook as [Hin _].
  pose proof (reachable_ok U D mention_ok w Hreach) as [[Husers _] _].
  pose proof (Husers r n Hin Hn) as Hstrip.
  split.
  - apply (nickname_step_rejects w uid n r n Hin Hn). now rewrite Hstrip.
  - intros now new_name. rewrite edit_name_enters_registration. simpl.
    split; [|split].
    + unfold set_state. now rewrite session_of_put.
    + unfold process_name, set_state. now rewrite session_of_put.
    + intros text Ht. now apply (nickname_step_rejects _ uid text r n).
Qed.

End Nicknames.

Lemma own_nickname_is_taken_witness :
  process_nickname ivan_world 1 (lit "ivan99") = (ivan_world, [NicknameTaken]).
Proof.
  refine (proj1 (own_nickname_is_taken U0 D0 mention0 ivan_world 1
                   {| user_id := 1; tg_first_name := lit "Ivan";
                      name := Some (lit "Ivan"); nickname := Some (lit "ivan99");
                      car_model := Some (lit "Toyota Corolla");
                      car_number := Some (lit "BC1234AB");
                      lang := lit "uk"; report_period := lit "weekly";
                      registered_at := isoformat0 (at_ 10 4) |}
                   (lit "ivan99") _ _ _)).
  - apply reachable_run, reachable_init.
  - vm_compute. reflexivity.
  - reflexivity.
Defined.

(* ================================================================= *)
(** ** The expense flow *)

Section ExpenseCategory.

Lemma startswith_app (p s : str) : startswith p (p ++ s) = true.
Proof. induction p as [|a p IH]; simpl; [reflexivity|]. now rewrite N.eqb_refl. Qed.

(** What the claim C2 says does not happen in the code: the driver is at
    the category step with the amount 50, the payload names a category that
    no button offers, and the handler stores the expense under that
    category, sends no "unknown action" notice and resets the
    conversation. *)
Lemma unknown_category_is_stored :
  let w := ivan_choosing_category in
  let out := step U0 D0 mention0 (at_ 11 0) w (CallbackQuery 1 (lit "exp_type:bribe")) in
  s_state (session_of w 1) = Some AddExpense_waiting_for_type
  /\ d_exp_amount (s_data (session_of w 1)) = Some (f_of_Z 50)
  /\ ~ In (lit "bribe") expense_categories
  /\ snd out = [CallbackAnswered; ExpenseAdded (f_of_Z 50) (lit "bribe")]
  /\ ~ In UnknownAction (snd out)
  /\ expenses (w_db w) = []
  /\ List.map (fun r => (exp_user r, exp_amount r, exp_type r)) (expenses (w_db (fst out)))
     = [(1%Z, f_of_Z 50, lit "bribe")]
  /\ session_of (fst out) 1 = default_session
  /\ session_of (fst out) 1 <> session_of w 1.
Proof.
  vm_compute. repeat split; try discriminate.
  - intros [H|[H|[H|[H|[]]]]]; discriminate H.
  - intros [H|[H|[]]]; discriminate H.
Qed.

Variable U : unicode.
Variable D : dtlib.
Variable mention_ok : str -> bool.

(** C2, as the code has it: a callback whose payload is "exp_type:"
    followed by any text, in the enumeration or not, stores an expense with
    the amount of the accumulator and that text as its category, answers
    with the confirmation and resets the conversation; without an amount in
    the accumulator it stores nothing, says that no amount was found and
    resets the conversation. *)
Theorem category_step_stores_any_category (now : datetime D) (w : world) (uid : Z) (ty : str) :
  step U D mention_ok now w (CallbackQuery uid (lit "exp_type:" ++ ty))
  = match d_exp_amount (s_data (session_of w uid)) with
    | Some amount =>
        (clear (with_db w (insert_expense (w_db w) uid amount ty (isoformat D now))) uid,
         [CallbackAnswered; ExpenseAdded amount ty])
    | None => (clear w uid, [CallbackAnswered; AmountNotFound])
    end
  /\ forall amount,
       d_exp_amount (s_data (session_of w uid)) = Some amount ->
       let out := step U D mention_ok now w (CallbackQuery uid (lit "exp_type:" ++ ty)) in
       expenses (w_db (fst out))
       = expenses (w_db w)
         ++ [{| exp_id := expense_seq (w_db w) + 1; exp_user := uid; exp_amount := amount;
                exp_type := ty; exp_ts := isoformat D now; exp_note := None |}]
       /\ session_of (fst out) uid = default_session
       /\ ~ In UnknownAction (snd out).
Proof.
  assert (Hstep : step U D mention_ok now w (CallbackQuery uid (lit "exp_type:" ++ ty))
                  = exp_type_callback D now w uid (lit "exp_type:" ++ ty)).
  { unfold step, dispatch_callback. now rewrite startswith_app. }
  assert (Hsplit : split_once 58 (lit "exp_type:" ++ ty) = (lit "exp_type", Some ty))
    by reflexivity.
  rewrite Hstep. unfold exp_type_callback. rewrite Hsplit.
  split; [reflexivity|].
  intros amount ->. simpl. split; [reflexivity|]. split.
  - unfold clear. apply session_of_put.
  - intros [H|[H|[]]]; discriminate H.
Qed.

End ExpenseCategory.

Lemma category_step_stores_any_category_witness :
  let out := step U0 D0 mention0 (at_ 11 0) ivan_choosing_category
               (CallbackQuery 1 (lit "exp_type:" ++ lit "bribe")) in
  expenses (w_db (fst out))
  = expenses (w_db ivan_choosing_category)
    ++ [{| exp_id := expense_seq (w_db ivan_choosing_category) + 1; exp_user := 1;
           exp_amount := f_of_Z 50; exp_type := lit "bribe";
           exp_ts := isoformat D0 (at_ 11 0); exp_note := None |}]
  /\ session_of (fst out) 1 = default_session
  /\ ~ In UnknownAction (snd out).
Proof.
  apply (proj2 (category_step_stores_any_category U0 D0 mention0 (at_ 11 0)
                  ivan_choosing_category 1 (lit "bribe")) (f_of_Z 50)).
  vm_compute. reflexivity.
Defined.

(* ================================================================= *)
(** ** Amounts typed by the user *)

Section AmountStep.

(** What the claim C4 says does not happen in the code: "inf" is no
    numeral, yet the validator accepts it, the parsed amount is plus
    infinity, and the income step books it. *)
Lemma infinity_is_accepted :
  let w := run U0 D0 mention0 init_world
             (ivan_registers ++ [ (at_ 10 5, Message 1 (lit "Ivan") MENU_INCOME) ]) in
  let out := step U0 D0 mention0 (at_ 10 6) w (Message 1 (lit "Ivan") (lit "inf")) in
  decimal_numeral (comma_to_period (lit "inf")) = false
  /\ is_valid_money U0 (lit "inf") = true
  /\ parse_money U0 (lit "inf") = Some (S754_infinity false)
  /\ s_state (session_of w 1) = Some AddIncome_waiting_for_amount
  /\ snd out = [IncomeAdded (S754_infinity false)]
  /\ List.map inc_amount (incomes (w_db (fst out))) = [S754_infinity false].
Proof. vm_compute. repeat split. Qed.

Variable U : unicode.
Variable D : dtlib.

(** C4, as the code has it: the validator accepts a text exactly when
    [float] reads the text with its commas turned into periods and the
    number read is greater than zero (plus infinity included); the amount
    parsed from an accepted text is greater than zero; and on a rejected
    text the income step and the expense step answer "incorrect amount" and
    leave the world (tables, state and accumulator) as it was. *)
Theorem amount_validator_spec (now : datetime D) (w : world) (uid : Z) (text : str) :
  (is_valid_money U text = true
   <-> exists v, py_float U (comma_to_period text) = Some v /\ f_ltb f_zero v = true)
  /\ (is_valid_money U text = true ->
      exists v, parse_money U text = Some v /\ positive_amount v)
  /\ (is_valid_money U text = false ->
      add_income_amount U D now w uid text = (w, [BadAmount])
      /\ add_expense_amount U w uid text = (w, [BadAmount])).
Proof.
  split; [|split].
  - unfold is_valid_money.
    destruct (py_float U (comma_to_period text)) as [v|].
    + split; [intros H; now exists v|intros (v' & [= <-] & H); exact H].
    + split; [discriminate|intros (v' & [=] & _)].
  - apply valid_money_parses.
  - intros H. unfold add_income_amount, add_expense_amount. now rewrite H.
Qed.

End AmountStep.

Lemma amount_validator_spec_witness :
  add_income_amount U0 D0 (at_ 10 6) ivan_world 1 (lit "abc") = (ivan_world, [BadAmount])
  /\ add_expense_amount U0 ivan_world 1 (lit "abc") = (ivan_world, [BadAmount]).
Proof.
  apply (proj2 (proj2 (amount_validator_spec U0 D0 (at_ 10 6) ivan_world 1 (lit "abc")))).
  vm_compute. reflexivity.
Defined.

(* ================================================================= *)
(** ** Routing of period texts *)

Section PeriodRouting.

(** What the claim C3 says does not happen in the code: a new user has
    been asked for a name, sends "2025-01-01,2025-01-31", and the text is
    taken as the name; the next prompt asks for a nickname, and no period
    report is made. *)
Lemma period_text_taken_as_name :
  let w := anna_asked_name in
  let text := lit "2025-01-01,2025-01-31" in
  let out := step U0 D0 mention0 (at_ 9 1) w (Message 7 (lit "Anna") text) in
  s_state (session_of w 7) = Some Registration_waiting_for_name
  /\ looks_like_period U0 text = true
  /\ out = process_name w 7 text
  /\ snd out = [AskNickname]
  /\ d_name (s_data (session_of (fst out) 7)) = Some text
  /\ snd (report_period_handler D0 w 7 text) = [PeriodReport (lit "2025-01-01")
                                                  (lit "2025-01-31") [] [] f_zero]
  /\ out <> report_period_handler D0 w 7 text.
Proof.
  vm_compute. repeat split. intros H. discriminate H.
Qed.

Variable U : unicode.
Hypothesis HU : unicode_facts U.
Variable D : dtlib.
Variable mention_ok : str -> bool.

Lemma digit_is_visible (c : char) : ascii_digit c = true -> isspace c = false.
Proof. by_ranges. Qed.

Lemma digit_is_ascii (c : char) : ascii_digit c = true -> (c < 128)%N.
Proof. by_ranges. Qed.

Lemma digit_is_no_command (c : char) (rest : str) :
  ascii_digit c = true -> is_start_command mention_ok (c :: rest) = false.
Proof.
  intros Hc. unfold is_start_command, first_token. simpl.
  rewrite (digit_is_visible c Hc). simpl. rewrite (digit_is_visible c Hc).
  destruct (split_once 64 (take_until_space rest)) as [cmd mention].
  assert ((c =? 47)%N = false) as -> by (revert Hc; by_ranges).
  reflexivity.
Qed.

Lemma digit_is_no_menu (c : char) (rest menu : str) :
  ascii_digit c = true ->
  match menu with m0 :: _ => (1000 <? m0)%N | [] => true end = true ->
  str_eqb (c :: rest) menu = false.
Proof.
  intros Hc Hm. apply str_eqb_false. intros <-.
  revert Hc Hm. by_ranges.
Qed.

Lemma in_state_true (w : world) (uid : Z) (st : fsm_state) :
  s_state (session_of w uid) = Some st -> in_state w uid st = true.
Proof. intros H. unfold in_state. now apply bool_decide_eq_true. Qed.

Lemma in_state_false (w : world) (uid : Z) (st : fsm_state) :
  s_state (session_of w uid) <> Some st -> in_state w uid st = false.
Proof. intros H. unfold in_state. now apply bool_decide_eq_false. Qed.

(** C3, as the code has it: a text that begins with a digit and contains a
    comma (every "date,date" text does) goes to the period report only
    when the sender is idle or at the category step of the expense flow,
    which has no handler for texts.  In each of the six states that do
    have one, the registration steps and the two amount steps, the text
    goes to the handler of that state, which is registered earlier. *)
Theorem period_text_routing (now : datetime D) (w : world) (uid : Z)
    (first : str) (c : char) (rest : str) :
  ascii_digit c = true ->
  contains 44 (c :: rest) = true ->
  step U D mention_ok now w (Message uid first (c :: rest))
  = match s_state (session_of w uid) with
    | None | Some AddExpense_waiting_for_type =>
        report_period_handler D w uid (c :: rest)
    | Some Registration_waiting_for_name => process_name w uid (c :: rest)
    | Some Registration_waiting_for_nickname => process_nickname w uid (c :: rest)
    | Some Registration_waiting_for_car_model => process_car_model w uid (c :: rest)
    | Some Registration_waiting_for_car_number =>
        process_car_number U D now w uid first (c :: rest)
    | Some AddIncome_waiting_for_amount => add_income_amount U D now w uid (c :: rest)
    | Some AddExpense_waiting_for_amount => add_expense_amount U w uid (c :: rest)
    end.
Proof using HU.
  intros Hc Hcomma. unfold step, dispatch_message.
  rewrite (digit_is_no_command c rest Hc).
  rewrite (digit_is_no_menu c rest MENU_INCOME Hc eq_refl).
  rewrite (digit_is_no_menu c rest MENU_EXPENSE Hc eq_refl).
  rewrite (digit_is_no_menu c rest MENU_STATS Hc eq_refl).
  assert (looks_like_period U (c :: rest) = true) as ->.
  { unfold looks_like_period. rewrite Hcomma.
    now rewrite (isdigit_ascii U HU c (digit_is_ascii c Hc)). }
  destruct (s_state (session_of w uid)) as [[]|] eqn:E;
    repeat first
      [ rewrite (in_state_true w uid _ E)
      | rewrite in_state_false by (rewrite E; discriminate) ];
    reflexivity.
Qed.

End PeriodRouting.

Lemma period_text_routing_witness :
  step U0 D0 mention0 (at_ 9 1) anna_asked_name
    (Message 7 (lit "Anna") (lit "2025-01-01,2025-01-31"))
  = process_name anna_asked_name 7 (lit "2025-01-01,2025-01-31").
Proof.
  exact (period_text_routing U0 U0_facts D0 mention0 (at_ 9 1) anna_asked_name 7
           (lit "Anna") 50%N (lit "025-01-01,2025-01-31") eq_refl eq_refl).
Defined.

(* ================================================================= *)
(** ** The period report *)

Section PeriodReport.

Lemma str_compare_antisym (a b : str) : str_compare b a = CompOpp (str_compare a b).
Proof.
  revert b. induction a as [|x a IH]; intros [|y b]; simpl; try reflexivity.
  rewrite (N.compare_antisym x y).
  destruct (x ?= y)%N; simpl; [apply IH|reflexivity|reflexivity].
Qed.

Lemma str_leb_total (a b : str) : str_leb a b = false -> str_leb b a = true.
Proof.
  unfold str_leb. rewrite (str_compare_antisym a b).
  destruct (str_compare a b); simpl; congruence.
Qed.

Lemma insert_by_ts_perm {A} (key : A -> str) (r : A) (l : list A) :
  Permutation (insert_by_ts key r l) (r :: l).
Proof.
  induction l as [|x l IH]; simpl; [reflexivity|].
  destruct (str_leb (key r) (key x)); [reflexivity|].
  rewrite IH. apply perm_swap.
Qed.

Lemma order_by_ts_perm {A} (key : A -> str) (l : list A) :
  Permutation (order_by_ts key l) l.
Proof.
  induction l as [|x l IH]; simpl; [reflexivity|].
  rewrite insert_by_ts_perm. now constructor.
Qed.

Lemma insert_by_ts_sorted {A} (key : A -> str) (r : A) (l : list A) :
  Sorted (by_ts key) l -> Sorted (by_ts key) (insert_by_ts key r l).
Proof.
  induction l as [|x l IH]; intros Hl; simpl.
  - repeat constructor.
  - destruct (str_leb (key r) (key x)) eqn:E.
    + constructor; [exact Hl|]. constructor. exact E.
    + inversion Hl as [|? ? Hs Hh]; subst.
      constructor; [now apply IH|].
      destruct l as [|y l]; simpl.
      * constructor. now apply str_leb_total.
      * destruct (str_leb (key r) (key y)).
        -- constructor. now apply str_leb_total.
        -- inversion Hh; subst. now constructor.
Qed.

Lemma order_by_ts_sorted {A} (key : A -> str) (l : list A) :
  Sorted (by_ts key) (order_by_ts key l).
Proof.
  induction l as [|x l IH]; simpl; [constructor|]. now apply insert_by_ts_sorted.
Qed.

(** What the claim C8 says does not happen in the code: the first part
    carries a time of day, so the text is not two calendar dates, yet the
    handler accepts it and reports from that time on: the income booked at
    10:06 of the same day is left out. *)
Lemma period_with_time_is_accepted :
  let text := lit "2025-01-15T10:07:00,2025-01-31" in
  two_iso_dates text = false
  /\ List.map inc_ts (incomes (w_db ivan_world))
     = [lit "2025-01-15T10:06:00"; lit "2025-01-15T10:08:00"]
  /\ snd (report_period_handler D0 ivan_world 1 text)
     = [PeriodReport (lit "2025-01-15T10:07:00") (lit "2025-01-31")
          [(lit "2025-01-15T10:08:00", f_of_Z 50)]
          [(lit "2025-01-15T10:11:00", f_of_Z 30, lit "fuel")]
          (f_of_Z 20)].
Proof. vm_compute. repeat split. Qed.

Variable D : dtlib.

(** C8, as the code has it.  The handler never changes the world.  The
    text is trimmed and cut at its commas, and the pieces that are not
    blank are trimmed.  When there are exactly two and [fromisoformat]
    reads both (plain dates, and whatever else it reads, such as a date
    with a time), and the day after the second exists, the report lists the
    sender's incomes and the sender's expenses whose timestamp is, as a
    text, at or after the first date-time and before the second plus one
    day, each list in the order of the timestamps, with the balance
    computed as the sum of the listed incomes minus the sum of the listed
    expenses.  A wrong number of pieces gives the format notice, and only
    that does; an unreadable piece, or no next day, gives the dates
    notice, and only that does. *)
Theorem report_period_handler_spec (w : world) (uid : Z) (text : str) :
  fst (report_period_handler D w uid text) = w
  /\ (forall p0 p1 start end0 end_,
        period_parts text = [p0; p1] ->
        fromisoformat D p0 = Some start ->
        fromisoformat D p1 = Some end0 ->
        plus_days D end0 1 = Some end_ ->
        exists ins outs,
          snd (report_period_handler D w uid text)
          = [PeriodReport p0 p1
               (List.map (fun r => (inc_ts r, inc_amount r)) ins)
               (List.map (fun r => (exp_ts r, exp_amount r, exp_type r)) outs)
               (f_sub (py_sum (List.map inc_amount ins))
                      (py_sum (List.map exp_amount outs)))]
          /\ Permutation ins
               (List.filter (fun r => str_leb (isoformat D start) (inc_ts r)
                                      && str_ltb (inc_ts r) (isoformat D end_))
                            (incomes_of (w_db w) uid))
          /\ Sorted (by_ts inc_ts) ins
          /\ Permutation outs
               (List.filter (fun r => str_leb (isoformat D start) (exp_ts r)
                                      && str_ltb (exp_ts r) (isoformat D end_))
                            (expenses_of (w_db w) uid))
          /\ Sorted (by_ts exp_ts) outs)
  /\ (snd (report_period_handler D w uid text) = [BadPeriodFormat]
      <-> forall p0 p1, period_parts text <> [p0; p1])
  /\ (snd (report_period_handler D w uid text) = [BadPeriodDates]
      <-> exists p0 p1,
            period_parts text = [p0; p1]
            /\ (fromisoformat D p0 = None
                \/ fromisoformat D p1 = None
                \/ exists end0, fromisoformat D p1 = Some end0
                                /\ plus_days D end0 1 = None)).
Proof.
  unfold report_period_handler.
  destruct (period_parts text) as [|p0 [|p1 [|p2 rest]]] eqn:Eparts.
  1,2,4: (split; [reflexivity|]; split; [intros ? ? ? ? ? [=]|]; split;
          [split; [intros _ ? ? [=]|reflexivity]
          |split; [intros [=]|intros (? & ? & [=] & _)]]).
  destruct (fromisoformat D p0) as [start|] eqn:E0;
    [destruct (fromisoformat D p1) as [end0|] eqn:E1;
     [destruct (plus_days D end0 1) as [end_|] eqn:E2|]|]; simpl.
  - split; [reflexivity|]. split; [|split].
    + intros q0 q1 s0 e0 e1 [= <- <-] Hs He Hp.
      rewrite E0 in Hs. rewrite E1 in He. injection Hs as <-. injection He as <-.
      rewrite E2 in Hp. injection Hp as <-.
      eexists. eexists. split; [reflexivity|].
      unfold incomes_in_range, expenses_in_range.
      repeat split; first [apply order_by_ts_perm|apply order_by_ts_sorted].
    + split; [intros [=]|intros H; now destruct (H p0 p1)].
    + split; [intros [=]|].
      intros (q0 & q1 & [= <- <-] & [H|[H|(e & H1 & H2)]]); try congruence.
  - split; [reflexivity|]. split; [|split].
    + intros q0 q1 s0 e0 e1 [= <- <-] Hs He Hp. congruence.
    + split; [intros [=]|intros H; now destruct (H p0 p1)].
    + split; [|reflexivity]. intros _. exists p0, p1. split; [reflexivity|].
      right; right. now exists end0.
  - split; [reflexivity|]. split; [|split].
    + intros q0 q1 s0 e0 e1 [= <- <-] Hs He Hp. congruence.
    + split; [intros [=]|intros H; now destruct (H p0 p1)].
    + split; [|reflexivity]. intros _. exists p0, p1. split; [reflexivity|].
      right; now left.
  - split; [reflexivity|]. split; [|split].
    + intros q0 q1 s0 e0 e1 [= <- <-] Hs He Hp. congruence.
    + split; [intros [=]|intros H; now destruct (H p0 p1)].
    + split; [|reflexivity]. intros _. exists p0, p1. split; [reflexivity|].
      now left.
Qed.

End PeriodReport.

Lemma report_period_handler_spec_witness :
  exists ins outs,
    snd (report_period_handler D0 ivan_world 1 (lit "2025-01-01,2025-01-31"))
    = [PeriodReport (lit "2025-01-01") (lit "2025-01-31")
         (List.map (fun r => (inc_ts r, inc_amount r)) ins)
         (List.map (fun r => (exp_ts r, exp_amount r, exp_type r)) outs)
         (f_sub (py_sum (List.map inc_amount ins)) (py_sum (List.map exp_amount outs)))]
    /\ Permutation ins
         (List.filter (fun r => str_leb (lit "2025-01-01T00:00:00") (inc_ts r)
                                && str_ltb (inc_ts r) (lit "2025-02-01T00:00:00"))
                      (incomes_of (w_db ivan_world) 1))
    /\ Sorted (by_ts inc_ts) ins
    /\ Permutation outs
         (List.filter (fun r => str_leb (lit "2025-01-01T00:00:00") (exp_ts r)
                                && str_ltb (exp_ts r) (lit "2025-02-01T00:00:00"))
                      (expenses_of (w_db ivan_world) 1))
    /\ Sorted (by_ts exp_ts) outs.
Proof.
  exact (proj1 (proj2 (report_period_handler_spec D0 ivan_world 1
                         (lit "2025-01-01,2025-01-31")))
           (lit "2025-01-01") (lit "2025-01-31")
           (Build_naive_datetime 2025 1 1 0 0 0 0)
           (Build_naive_datetime 2025 1 31 0 0 0 0)
           (Build_naive_datetime 2025 2 1 0 0 0 0)
           eq_refl eq_refl eq_refl eq_refl).
Defined.

Lemma get_balance_identity_witness :
  get_balance D0 (w_db ivan_world) 1 (Some (at_ 9 0)) = get_balance D0 (w_db ivan_world) 1 None
  /\ get_balance D0 (w_db ivan_world) 1 None
     = (add_all (List.map inc_amount (incomes_of (w_db ivan_world) 1)),
        add_all (List.map exp_amount (expenses_of (w_db ivan_world) 1)),
        f_sub (add_all (List.map inc_amount (incomes_of (w_db ivan_world) 1)))
              (add_all (List.map exp_amount (expenses_of (w_db ivan_world) 1)))).
Proof.
  split.
  - apply (proj1 (proj2 (get_balance_identity D0 (w_db ivan_world) 1 (Some (at_ 9 0))))
             (at_ 9 0) eq_refl).
    + vm_compute. intros r [<-|[<-|[]]] _; reflexivity.
    + vm_compute. intros r [<-|[]] _; reflexivity.
  - apply (proj2 (proj2 (get_balance_identity D0 (w_db ivan_world) 1 None))).
    split; vm_compute; repeat constructor.
Defined.

(* ================================================================= *)
(** ** More on the ledger store *)

Section StoreRows.

Lemma in_insert_row_iff (row x : user_row) (l : list user_row) :
  In x (insert_row row l) <-> x = row \/ In x l.
Proof.
  split; [apply in_insert_row|].
  induction l as [|y l IH]; simpl.
  - intros [->|[]]. now left.
  - destruct (user_id row <? user_id y)%Z; simpl.
    + intros [->|[->|H]]; [now left|right; now left|right; now right].
    + intros [->|[->|H]]; [right; apply IH; now left|now left|right; apply IH; now right].
Qed.

Lemma conflicts_false (row x : user_row) :
  conflicts row x = false
  <-> user_id x <> user_id row
      /\ forall n, nickname x = Some n -> nickname row <> Some n.
Proof.
  unfold conflicts. rewrite orb_false_iff, Z.eqb_neq.
  split; intros [H1 H2]; (split; [exact H1|]).
  - intros n Hx Hr. rewrite Hx, Hr in H2. now apply str_eqb_false in H2.
  - destruct (nickname x) as [a|]; [|reflexivity].
    destruct (nickname row) as [b|]; [|reflexivity].
    apply str_eqb_false. intros ->. now apply (H2 b).
Qed.

(** X1: after [save_user] the users table holds the row just written and,
    of the rows it held before, exactly those of other users whose
    nickname is NULL or differs from the new one byte for byte; a row of
    another user with the same nickname is deleted.  The two entry tables
    are untouched. *)
Theorem save_user_keeps_other_rows (d : db) (uid : Z) (first : str) (data : acc)
    (now : str) (x : user_row) :
  let row := {| user_id := uid; tg_first_name := first;
                name := d_name data; nickname := d_nickname data;
                car_model := d_car_model data; car_number := d_car_number data;
                lang := lit "uk"; report_period := lit "weekly";
                registered_at := now |} in
  (In x (users (save_user d uid first data now))
   <-> x = row
       \/ (In x (users d) /\ user_id x <> uid
           /\ forall n, nickname x = Some n -> d_nickname data <> Some n))
  /\ incomes (save_user d uid first data now) = incomes d
  /\ expenses (save_user d uid first data now) = expenses d.
Proof.
  intros row. split; [|split; reflexivity].
  unfold save_user; simpl. fold row.
  rewrite in_insert_row_iff, List.filter_In, negb_true_iff, conflicts_false.
  simpl. tauto.
Qed.

End StoreRows.

(* ================================================================= *)
(** ** More on the leaderboard *)

Section LeaderboardOrder.

Lemma f_ltb_asym (x y : float) : SFltb x y = true -> SFltb y x = false.
Proof.
  unfold SFltb.
  destruct x as [sx|sx| |sx mx ex], y as [sy|sy| |sy my ey]; simpl;
    try destruct sx; try destruct sy; simpl; try discriminate; try reflexivity;
    rewrite (Z.compare_antisym ex ey);
    change (Pos.compare_cont Eq my mx) with (my ?= mx)%positive;
    change (Pos.compare_cont Eq mx my) with (mx ?= my)%positive;
    rewrite (Pos.compare_antisym mx my);
    destruct (ex ?= ey)%Z; simpl; try discriminate; try reflexivity;
    destruct (mx ?= my)%positive; simpl; try discriminate; reflexivity.
Qed.

Lemma bal_gtb_asym (a b : option float) : bal_gtb a b = true -> bal_gtb b a = false.
Proof.
  destruct a as [x|], b as [y|]; simpl; try discriminate; try reflexivity.
  apply f_ltb_asym.
Qed.

Lemma insert_desc_perm (r : top_row) (l : list top_row) :
  Permutation (insert_desc r l) (r :: l).
Proof.
  induction l as [|x l IH]; simpl; [reflexivity|].
  destruct (bal_gtb (snd x) (snd r)); [|reflexivity].
  rewrite IH. apply perm_swap.
Qed.

Lemma order_by_balance_desc_perm (l : list top_row) :
  Permutation (order_by_balance_desc l) l.
Proof.
  induction l as [|x l IH]; simpl; [reflexivity|].
  rewrite insert_desc_perm. now constructor.
Qed.

Lemma insert_desc_sorted (r : top_row) (l : list top_row) :
  Sorted not_above l -> Sorted not_above (insert_desc r l).
Proof.
  induction l as [|x l IH]; intros Hl; simpl.
  - repeat constructor.
  - destruct (bal_gtb (snd x) (snd r)) eqn:E.
    + inversion Hl as [|? ? Hs Hh]; subst.
      constructor; [now apply IH|].
      destruct l as [|y l]; simpl.
      * constructor. unfold not_above. now apply bal_gtb_asym.
      * destruct (bal_gtb (snd y) (snd r)).
        -- inversion Hh; subst. now constructor.
        -- constructor. unfold not_above. now apply bal_gtb_asym.
    + constructor; [exact Hl|]. constructor. exact E.
Qed.

Lemma order_by_balance_desc_sorted (l : list top_row) :
  Sorted not_above (order_by_balance_desc l).
Proof.
  induction l as [|x l IH]; simpl; [constructor|]. now apply insert_desc_sorted.
Qed.

Lemma sorted_firstn {A} (R : A -> A -> Prop) (n : nat) (l : list A) :
  Sorted R l -> Sorted R (firstn n l).
Proof.
  revert l. induction n as [|n IH]; intros l Hl; simpl; [constructor|].
  destruct l as [|x l]; [constructor|].
  inversion Hl as [|? ? Hs Hh]; subst. constructor; [now apply IH|].
  destruct n; simpl; [constructor|].
  destruct l as [|y l]; [constructor|]. inversion Hh; subst. now constructor.
Qed.

(** X2: the rows of [get_top_drivers] come in descending order of balance
    (no row is followed by one with a greater balance, NULL counting as
    least); each row is the nickname, the name and the joined balance of a
    stored user; there are no more rows than users, and no more than a
    limit that is not negative; a negative limit, or one that reaches the
    number of users, lists every user once. *)
Theorem get_top_drivers_ordered (d : db) (limit : Z) :
  let all := List.map (fun u => (nickname u, name u, group_balance d (user_id u)))
                      (users d) in
  Sorted not_above (get_top_drivers d limit)
  /\ (forall row, In row (get_top_drivers d limit) -> In row all)
  /\ (List.length (get_top_drivers d limit) <= List.length (users d))%nat
  /\ ((0 <= limit)%Z -> (List.length (get_top_drivers d limit) <= Z.to_nat limit)%nat)
  /\ ((limit < 0 \/ Z.of_nat (List.length (users d)) <= limit)%Z ->
      Permutation (get_top_drivers d limit) all).
Proof.
  intros all. unfold get_top_drivers, sql_limit. fold all.
  pose proof (order_by_balance_desc_perm all) as Hperm.
  pose proof (order_by_balance_desc_sorted all) as Hsort.
  assert (Hlen : List.length (order_by_balance_desc all) = List.length (users d)).
  { rewrite (Permutation_length Hperm). unfold all. apply List.length_map. }
  split; [|split; [|split; [|split]]].
  - destruct (limit <? 0)%Z; [exact Hsort|now apply sorted_firstn].
  - intros row Hrow. apply (Permutation_in _ Hperm).
    destruct (limit <? 0)%Z; [exact Hrow|].
    rewrite <- (List.firstn_skipn (Z.to_nat limit)). apply in_or_app. now left.
  - destruct (limit <? 0)%Z; [now rewrite Hlen|].
    rewrite List.length_firstn. lia.
  - intros Hl. destruct (Z.ltb_spec limit 0); [lia|].
    rewrite List.length_firstn. lia.
  - intros Hl. destruct (Z.ltb_spec limit 0); [exact Hperm|].
    rewrite List.firstn_all2; [exact Hperm|]. rewrite Hlen. lia.
Qed.













Variable D : dtlib.


End LeaderboardOrder.


(* ================================================================= *)
(** ** More on amounts typed by the user *)

Section Separators.

Lemma count_char_map (f : char -> char) (c : char) (s : str) :
  (forall x, f x = c <-> x = c) -> count_char c (List.map f s) = count_char c s.
Proof.
  intros Hf. unfold count_char. induction s as [|x s IH]; simpl; [reflexivity|].
  destruct (Hf x) as [H1 H2].
  destruct (N.eq_dec (f x) c) as [E|E], (N.eq_dec x c) as [E'|E'];
    rewrite IH; try reflexivity.
  - now destruct (E' (H1 E)).
  - now destruct (E (H2 E')).
Qed.

Lemma count_char_cons_other (c x : char) (s : str) :
  x <> c -> count_char c (x :: s) = count_char c s.
Proof. intros H. unfold count_char. now apply count_occ_cons_neq. Qed.

Lemma count_char_rev (c : char) (s : str) : count_char c (rev s) = count_char c s.
Proof. unfold count_char. apply count_occ_rev. Qed.

Lemma strip_underscores_count (c : char) (s s' : str) (prev : char) :
  c <> 95%N -> strip_underscores prev s = Some s' -> count_char c s' = count_char c s.
Proof.
  intros Hc. revert prev s'. induction s as [|x s IH]; intros prev s'; simpl.
  - destruct (prev =? 95)%N; [discriminate|]. now intros [= <-].
  - destruct (N.eqb_spec x 95) as [->|Hx].
    + destruct (ascii_digit prev); [|discriminate].
      intros H. rewrite (IH _ _ H). symmetry. apply count_char_cons_other. congruence.
    + destruct ((prev =? 95)%N && negb (ascii_digit x)); [discriminate|].
      destruct (strip_underscores x s) as [t|] eqn:E; [|discriminate].
      simpl. intros [= <-]. unfold count_char in *. simpl.
      rewrite (IH _ _ E). reflexivity.
Qed.

Lemma c_lstrip_count (c : char) (s : str) :
  c_isspace c = false -> count_char c (c_lstrip s) = count_char c s.
Proof.
  intros Hc. induction s as [|x s IH]; simpl; [reflexivity|].
  destruct (c_isspace x) eqn:E; [|reflexivity].
  rewrite IH. symmetry. apply count_char_cons_other. intros ->. congruence.
Qed.

Lemma c_strip_count (c : char) (s : str) :
  c_isspace c = false -> count_char c (c_strip s) = count_char c s.
Proof.
  intros Hc. unfold c_strip.
  now rewrite count_char_rev, c_lstrip_count, count_char_rev, c_lstrip_count.
Qed.

Lemma span_digits_count (c : char) (s : str) :
  ascii_digit c = false -> count_char c (snd (span_digits s)) = count_char c s.
Proof.
  intros Hc. induction s as [|x s IH]; simpl; [reflexivity|].
  destruct (ascii_digit x) eqn:E; [|reflexivity].
  destruct (span_digits s) as [ds r]. simpl in *. rewrite IH.
  symmetry. apply count_char_cons_other. intros ->. congruence.
Qed.

Lemma take_sign_count (s : str) : count_char 46 (snd (take_sign s)) = count_char 46 s.
Proof.
  unfold take_sign.
  destruct s as [|x s]; [reflexivity|].
  destruct x as [|p]; [reflexivity|].
  do 6 (destruct p as [p|p|]; try reflexivity).
Qed.

Ltac exponent_has_no_period ip fp r2 :=
  let c := fresh "c" in let r3 := fresh "r3" in let Ec := fresh "Ec" in
  let Hs := fresh "Hs" in let Hd := fresh "Hd" in
  destruct (ip ++ fp); [congruence|];
  destruct r2 as [|c r3]; [reflexivity|];
  destruct ((c =? 101)%N || (c =? 69)%N) eqn:Ec; [|congruence];
  pose proof (take_sign_count r3) as Hs;
  destruct (take_sign r3) as [? ?]; simpl in Hs;
  match type of Hs with
  | count_char _ ?r4 = _ =>
      pose proof (span_digits_count 46 r4 eq_refl) as Hd;
      destruct (span_digits r4) as [[|? ?] [|? ?]]; try congruence
  end;
  intros _; simpl in Hd;
  rewrite count_char_cons_other, <- Hs, <- Hd;
  [reflexivity|intros ->; discriminate Ec].

Lemma parse_decimal_count (s : str) :
  parse_decimal s <> None -> (count_char 46 s <= 1)%nat.
Proof.
  unfold parse_decimal.
  pose proof (span_digits_count 46 s eq_refl) as H1.
  destruct (span_digits s) as [ip r1]. simpl in H1. rewrite <- H1. clear H1.
  destruct r1 as [|x r].
  - intros _. apply Nat.le_0_l.
  - destruct (N.eq_dec x 46) as [->|Hx].
    + pose proof (span_digits_count 46 r eq_refl) as H2.
      destruct (span_digits r) as [fp r2]. simpl in H2.
      intros H. assert (H0 : count_char 46 r2 = 0%nat)
        by (revert H; exponent_has_no_period ip fp r2).
      unfold count_char in *. simpl. lia.
    + match goal with
      | |- context [let (_, _) := ?m in _] =>
          assert (Hm : m = ([], x :: r));
          [destruct x as [|p]; [reflexivity|];
           do 6 (destruct p as [p|p|]; try reflexivity); congruence
          |rewrite Hm]
      end.
      cbv iota beta.
      destruct (ip ++ []); [congruence|].
      destruct ((x =? 101)%N || (x =? 69)%N) eqn:Ec; [|congruence].
      pose proof (take_sign_count r) as Hs.
      destruct (take_sign r) as [eneg r4]. simpl in Hs.
      pose proof (span_digits_count 46 r4 eq_refl) as Hd.
      destruct (span_digits r4) as [[|d ed] [|y r5]]; try congruence.
      intros _. simpl in Hd.
      rewrite count_char_cons_other, <- Hs, <- Hd; [apply Nat.le_0_l|exact Hx].
Qed.

Lemma parse_inf_nan_count (neg : bool) (s : str) :
  parse_inf_nan neg s <> None -> count_char 46 s = 0%nat.
Proof.
  unfold parse_inf_nan. intros H.
  assert (Hl : count_char 46 (ascii_lower s) = 0%nat).
  { destruct (str_eqb (ascii_lower s) (lit "inf")) eqn:E1;
      [apply str_eqb_true in E1; now rewrite E1|].
    destruct (str_eqb (ascii_lower s) (lit "infinity")) eqn:E2;
      [apply str_eqb_true in E2; now rewrite E2|].
    destruct (str_eqb (ascii_lower s) (lit "nan")) eqn:E3;
      [apply str_eqb_true in E3; now rewrite E3|].
    simpl in H. congruence. }
  rewrite <- Hl. symmetry. apply count_char_map.
  intros x. by_ranges.
Qed.

Lemma comma_to_period_count (text : str) :
  count_char 46 (comma_to_period text) = (count_char 44 text + count_char 46 text)%nat.
Proof.
  unfold comma_to_period, replace_char, count_char.
  induction text as [|x text IH]; [reflexivity|].
  simpl. rewrite count_occ_app. unfold str, char in *. rewrite IH.
  destruct (N.eqb_spec x 44) as [->|H44]; [reflexivity|].
  simpl.
  destruct (N.eq_dec x 44) as [|_]; [contradiction|].
  destruct (N.eq_dec x 46); lia.
Qed.

Variable U : unicode.

Lemma py_float_count (s : str) : py_float U s <> None -> (count_char 46 s <= 1)%nat.
Proof.
  unfold py_float. intros H.
  assert (Hmap : count_char 46 (List.map (to_ascii_decimal U) s) = count_char 46 s).
  { apply count_char_map. intros x. unfold to_ascii_decimal.
    destruct (N.ltb_spec x 127); [reflexivity|].
    destruct (isspace x); [split; [discriminate|lia]|].
    destruct (decimal U x); split; try discriminate; lia. }
  destruct (strip_underscores 0 (List.map (to_ascii_decimal U) s)) as [t|] eqn:Et;
    [|congruence].
  rewrite <- Hmap, <- (strip_underscores_count 46 _ _ _ ltac:(discriminate) Et).
  rewrite <- (c_strip_count 46 t eq_refl), <- take_sign_count.
  destruct (take_sign (c_strip t)) as [neg body]. simpl.
  destruct (parse_decimal body) as [[m e]|] eqn:Ep.
  - apply parse_decimal_count. congruence.
  - rewrite (parse_inf_nan_count neg body H). lia.
Qed.

(** X5: an amount text is read only if it holds at most one decimal
    separator, counting commas and periods together; with two or more (a
    thousands separator, say) [parse_money] raises and the validator
    rejects the text. *)
Theorem two_separators_rejected (text : str) :
  (2 <= count_char 44 text + count_char 46 text)%nat ->
  parse_money U text = None /\ is_valid_money U text = false.
Proof.
  intros H.
  assert (Hp : parse_money U text = None).
  { unfold parse_money.
    destruct (py_float U (comma_to_period text)) eqn:E; [|reflexivity].
    assert (Hc : (count_char 46 (comma_to_period text) <= 1)%nat)
      by (apply py_float_count; congruence).
    rewrite comma_to_period_count in Hc. lia. }
  split; [exact Hp|].
  unfold is_valid_money. unfold parse_money in Hp. now rewrite Hp.
Qed.

End Separators.

Lemma two_separators_rejected_witness :
  parse_money U0 (lit "1,000.50") = None /\ is_valid_money U0 (lit "1,000.50") = false.
Proof. apply two_separators_rejected. vm_compute. lia. Defined.

(* ================================================================= *)
(** ** More on the period report *)

Section PeriodEdges.

Lemma str_compare_eq (a b : str) : str_compare a b = Eq -> a = b.
Proof.
  revert b. induction a as [|x a IH]; intros [|y b]; simpl; try discriminate;
    [reflexivity|].
  destruct (N.compare_spec x y) as [->|H|H]; try discriminate.
  intros E. now rewrite (IH b E).
Qed.

Lemma str_compare_lt_trans (a b c : str) :
  str_compare a b = Lt -> str_compare b c = Lt -> str_compare a c = Lt.
Proof.
  revert b c. induction a as [|x a IH]; intros [|y b] [|z c]; simpl;
    try discriminate; try reflexivity.
  destruct (N.compare_spec x y) as [->|Hxy|Hxy]; try discriminate.
  - destruct (N.compare_spec y z) as [->|Hyz|Hyz]; try discriminate;
      [apply IH|reflexivity].
  - intros _. destruct (N.compare_spec y z) as [->|Hyz|Hyz]; try discriminate; intros _.
    + now apply N.compare_lt_iff in Hxy as ->.
    + assert (x < z)%N as Hxz by lia. now apply N.compare_lt_iff in Hxz as ->.
Qed.

(** No timestamp lies in a window whose end is not after its start. *)
Lemma empty_window (from to ts : str) :
  str_leb to from = true -> str_leb from ts && str_ltb ts to = false.
Proof.
  unfold str_leb, str_ltb. intros Hle.
  destruct (str_compare ts to) eqn:E1; try (now rewrite andb_false_r).
  rewrite andb_true_r.
  assert (Hlt : str_compare ts from = Lt).
  { destruct (str_compare to from) eqn:E2; try discriminate.
    - apply str_compare_eq in E2. now subst.
    - exact (str_compare_lt_trans _ _ _ E1 E2). }
  rewrite (str_compare_antisym ts from), Hlt. reflexivity.
Qed.

Lemma filter_none {A} (f : A -> bool) (l : list A) :
  (forall x, f x = false) -> List.filter f l = [].
Proof. intros H. induction l as [|x l IH]; simpl; [reflexivity|]. now rewrite H. Qed.

Lemma in_lstrip (c : char) (s : str) : In c (lstrip s) -> In c s.
Proof.
  induction s as [|x s IH]; simpl; [trivial|].
  destruct (isspace x); [intros H; right; now apply IH|trivial].
Qed.

Lemma in_strip (c : char) (s : str) : In c (strip s) -> In c s.
Proof.
  unfold strip, rstrip. intros H.
  apply in_lstrip. apply in_rev. apply in_lstrip. now apply in_rev in H.
Qed.

Lemma split_on_no_separator (sep : char) (s p : str) :
  In p (split_on sep s) -> ~ In sep p.
Proof.
  revert p. induction s as [|x s IH]; simpl.
  - intros p [<-|[]] [].
  - destruct (N.eqb_spec x sep) as [->|Hx].
    + intros p [<-|H]; [intros []|now apply IH].
    + destruct (split_on sep s) as [|q qs] eqn:E.
      * intros p [<-|[]] [H|[]]. congruence.
      * intros p [<-|H].
        -- intros [H|H]; [congruence|]. apply (IH q); [now left|exact H].
        -- apply IH. now right.
Qed.

(** X6: the pieces that the period handler passes to [fromisoformat] are
    never empty, never begin or end with white space, and never contain a
    comma, whatever the text was. *)
Theorem period_parts_are_trimmed (text p : str) :
  In p (period_parts text) -> p <> [] /\ stripped p /\ ~ In 44%N p.
Proof.
  unfold period_parts. intros H.
  apply List.in_map_iff in H as (q & <- & Hq).
  apply List.filter_In in Hq as [Hq Hne].
  split; [|split].
  - intros E. rewrite E in Hne. discriminate.
  - apply strip_stripped.
  - intros Hc. apply in_strip in Hc.
    exact (split_on_no_separator 44 _ q Hq Hc).
Qed.

Variable D : dtlib.

(** X7: when the text of the second date-time plus one day does not come
    after the text of the first (the dates are given in reverse, say), the
    period handler answers with an empty report, no incomes, no expenses
    and the balance zero, and changes nothing. *)
Theorem reversed_period_is_empty (w : world) (uid : Z) (text p0 p1 : str)
    (start end0 end_ : datetime D) :
  period_parts text = [p0; p1] ->
  fromisoformat D p0 = Some start ->
  fromisoformat D p1 = Some end0 ->
  plus_days D end0 1 = Some end_ ->
  str_leb (isoformat D end_) (isoformat D start) = true ->
  report_period_handler D w uid text = (w, [PeriodReport p0 p1 [] [] f_zero]).
Proof.
  intros Hp H0 H1 H2 Hle. unfold report_period_handler.
  rewrite Hp, H0, H1, H2.
  unfold incomes_in_range, expenses_in_range.
  rewrite (filter_none (fun r => str_leb (isoformat D start) (inc_ts r)
                                 && str_ltb (inc_ts r) (isoformat D end_)))
    by (intros r; now apply empty_window).
  rewrite (filter_none (fun r => str_leb (isoformat D start) (exp_ts r)
                                 && str_ltb (exp_ts r) (isoformat D end_)))
    by (intros r; now apply empty_window).
  reflexivity.
Qed.

End PeriodEdges.

Lemma period_parts_are_trimmed_witness :
  lit "2025-01-31" <> [] /\ stripped (lit "2025-01-31") /\ ~ In 44%N (lit "2025-01-31").
Proof.
  apply (period_parts_are_trimmed (lit " 2025-01-01 ,, 2025-01-31 ,")).
  vm_compute. right. now left.
Defined.

Lemma reversed_period_is_empty_witness :
  report_period_handler D0 ivan_world 1 (lit "2025-01-31,2025-01-01")
  = (ivan_world, [PeriodReport (lit "2025-01-31") (lit "2025-01-01") [] [] f_zero]).
Proof.
  exact (reversed_period_is_empty D0 ivan_world 1 (lit "2025-01-31,2025-01-01")
           (lit "2025-01-31") (lit "2025-01-01")
           (Build_naive_datetime 2025 1 31 0 0 0 0)
           (Build_naive_datetime 2025 1 1 0 0 0 0)
           (Build_naive_datetime 2025 1 2 0 0 0 0)
           eq_refl eq_refl eq_refl eq_refl eq_refl).
Defined.

(* ================================================================= *)
(** ** More on what holds in every reachable world *)

(** Opens the handler that a dispatch has chosen, case by case. *)
Ltac open_handler :=
  unfold cmd_start, process_name, process_nickname, process_car_model,
    process_car_number, add_income_start, add_income_amount, add_expense_start,
    add_expense_amount, exp_type_callback, my_stats_handler, report_period_start,
    report_period_handler, my_car_handler, edit_callback, settings_handler,
    settings_callback, top_drivers_handler;
  try match goal with
      | |- context [is_valid_money ?U ?t] =>
          let Hv := fresh "Hv" in
          destruct (is_valid_money U t) eqn:Hv;
          [let v := fresh "v" in let Hp := fresh "Hparse" in let Hpos := fresh "Hpos" in
           destruct (valid_money_parses U t Hv) as (v & Hp & Hpos); rewrite Hp
          |]
      end;
  repeat match goal with
         | |- context [match ?x with _ => _ end] => destruct x eqn:?
         end;
  cbn [fst snd].

Ltac step_cases ev :=
  let uid := fresh "uid" in let first := fresh "first" in
  let text := fresh "text" in let data := fresh "data" in
  destruct ev as [uid first text|uid data]; cbn [step sender];
  [unfold dispatch_message|unfold dispatch_callback];
  repeat match goal with
         | |- context [if ?b then _ else _] => destruct b eqn:?
         end;
  open_handler.

Section WellFormed.

Lemma strongly_sorted_filter {A} (R : A -> A -> Prop) (f : A -> bool) (l : list A) :
  StronglySorted R l -> StronglySorted R (List.filter f l).
Proof.
  induction 1 as [|x l Hl IH Hx]; simpl; [constructor|].
  destruct (f x); [|exact IH]. constructor; [exact IH|].
  apply List.Forall_forall. intros y Hy. apply List.filter_In in Hy as [Hy _].
  exact (proj1 (List.Forall_forall _ _) Hx y Hy).
Qed.

Lemma strongly_sorted_snoc {A} (R : A -> A -> Prop) (l : list A) (x : A) :
  StronglySorted R l -> Forall (fun y => R y x) l -> StronglySorted R (l ++ [x]).
Proof.
  induction 1 as [|y l Hl IH Hy]; intros Hx; simpl.
  - repeat constructor.
  - inversion Hx; subst. constructor; [now apply IH|].
    apply List.Forall_app. split; [exact Hy|]. now constructor.
Qed.

Lemma insert_row_keyed (row : user_row) (l : list user_row) :
  users_keyed l -> Forall (fun x => user_id x <> user_id row) l ->
  users_keyed (insert_row row l).
Proof.
  unfold users_keyed. induction 1 as [|y l Hl IH Hy]; intros Hne; simpl.
  - repeat constructor.
  - inversion Hne as [|? ? Hy' Hne']; subst.
    destruct (Z.ltb_spec (user_id row) (user_id y)).
    + constructor; [now constructor|]. constructor; [exact H|].
      apply List.Forall_forall. intros z Hz.
      pose proof (proj1 (List.Forall_forall _ _) Hy z Hz) as Hyz. simpl in Hyz. lia.
    + constructor; [now apply IH|].
      apply List.Forall_forall. intros z Hz. apply in_insert_row in Hz as [->|Hz].
      * lia.
      * exact (proj1 (List.Forall_forall _ _) Hy z Hz).
Qed.

Lemma users_keyed_same_id (l : list user_row) (r1 r2 : user_row) :
  users_keyed l -> In r1 l -> In r2 l -> user_id r1 = user_id r2 -> r1 = r2.
Proof.
  unfold users_keyed. induction 1 as [|y l Hl IH Hy]; simpl; [intros []|].
  intros [<-|H1] [<-|H2] E; try reflexivity.
  - pose proof (proj1 (List.Forall_forall _ _) Hy r2 H2) as Hlt. simpl in Hlt. lia.
  - pose proof (proj1 (List.Forall_forall _ _) Hy r1 H1) as Hlt. simpl in Hlt. lia.
  - now apply IH.
Qed.

Variable P : str -> Prop.

Lemma save_user_wf (d : db) (uid : Z) (first : str) (data : acc) (now : str) :
  db_wf P d ->
  (forall p, d_car_number data = Some p -> P p) ->
  db_wf P (save_user d uid first data now).
Proof.
  intros (Hk & Hn & Hp & He) Hplate.
  set (row := {| user_id := uid; tg_first_name := first;
                 name := d_name data; nickname := d_nickname data;
                 car_model := d_car_model data; car_number := d_car_number data;
                 lang := lit "uk"; report_period := lit "weekly";
                 registered_at := now |}).
  assert (Hin : forall x, In x (users (save_user d uid first data now)) ->
                          x = row \/ (In x (users d) /\ conflicts row x = false)).
  { intros x Hx. simpl in Hx. apply in_insert_row in Hx as [->|Hx]; [now left|].
    apply List.filter_In in Hx as [Hx Hc]. right. split; [exact Hx|].
    now apply negb_true_iff. }
  split; [|split; [|split]].
  - simpl. apply insert_row_keyed.
    + now apply strongly_sorted_filter.
    + apply (survivors_have_other_ids row).
  - intros r1 r2 n H1 H2 N1 N2.
    destruct (Hin r1 H1) as [->|[I1 C1]], (Hin r2 H2) as [->|[I2 C2]].
    + reflexivity.
    + apply conflicts_false in C2 as [_ C2]. now destruct (C2 n N2).
    + apply conflicts_false in C1 as [_ C1]. now destruct (C1 n N1).
    + exact (Hn r1 r2 n I1 I2 N1 N2).
  - intros r p Hr Hc. destruct (Hin r Hr) as [->|[I _]].
    + now apply Hplate.
    + exact (Hp r p I Hc).
  - exact He.
Qed.

Lemma insert_income_wf (d : db) (uid : Z) (amount : float) (ts : str) :
  db_wf P d -> db_wf P (insert_income d uid amount ts).
Proof.
  intros (Hk & Hn & Hp & (H1 & H2 & H3 & H4)).
  split; [exact Hk|]. split; [exact Hn|]. split; [exact Hp|].
  split; [|split; [|split]]; simpl; try assumption.
  - rewrite List.map_app. simpl. apply strongly_sorted_snoc; [exact H1|].
    apply List.Forall_map. eapply List.Forall_impl; [|exact H2]. simpl. intros; lia.
  - apply List.Forall_app. split.
    + eapply List.Forall_impl; [|exact H2]. simpl. intros; lia.
    + constructor; [simpl; lia|constructor].
Qed.

Lemma insert_expense_wf (d : db) (uid : Z) (amount : float) (ty ts : str) :
  db_wf P d -> db_wf P (insert_expense d uid amount ty ts).
Proof.
  intros (Hk & Hn & Hp & (H1 & H2 & H3 & H4)).
  split; [exact Hk|]. split; [exact Hn|]. split; [exact Hp|].
  split; [|split; [|split]]; simpl; try assumption.
  - rewrite List.map_app. simpl. apply strongly_sorted_snoc; [exact H3|].
    apply List.Forall_map. eapply List.Forall_impl; [|exact H4]. simpl. intros; lia.
  - apply List.Forall_app. split.
    + eapply List.Forall_impl; [|exact H4]. simpl. intros; lia.
    + constructor; [simpl; lia|constructor].
Qed.

(** A change of columns that are neither the key, the nickname nor the
    plate. *)
Lemma map_users_wf (g : user_row -> user_row) (l : list user_row) :
  (forall r, user_id (g r) = user_id r /\ nickname (g r) = nickname r
             /\ car_number (g r) = car_number r) ->
  users_keyed l /\ nicknames_distinct l /\ plates_satisfy P l ->
  users_keyed (List.map g l) /\ nicknames_distinct (List.map g l)
  /\ plates_satisfy P (List.map g l).
Proof.
  intros Hg (Hk & Hn & Hp). split; [|split].
  - unfold users_keyed in *. induction Hk as [|y l Hl IH Hy]; simpl; constructor.
    + apply IH.
      * intros r1 r2 n H1 H2. apply Hn; now right.
      * intros r p Hr. apply Hp. now right.
    + apply List.Forall_map. eapply List.Forall_impl; [|exact Hy].
      simpl. intros z Hz. destruct (Hg y) as [-> _], (Hg z) as [-> _]. exact Hz.
  - intros r1 r2 n H1 H2 N1 N2.
    apply List.in_map_iff in H1 as (q1 & <- & Q1).
    apply List.in_map_iff in H2 as (q2 & <- & Q2).
    destruct (Hg q1) as (E1 & E1' & _), (Hg q2) as (E2 & E2' & _).
    rewrite E1, E2. rewrite E1' in N1. rewrite E2' in N2.
    exact (Hn q1 q2 n Q1 Q2 N1 N2).
  - intros r p Hr Hc. apply List.in_map_iff in Hr as (q & <- & Q).
    destruct (Hg q) as (_ & _ & E). rewrite E in Hc. exact (Hp q p Q Hc).
Qed.

Lemma update_lang_wf (d : db) (uid : Z) (val : str) :
  db_wf P d -> db_wf P (update_lang d uid val).
Proof.
  intros (Hk & Hn & Hp & He).
  destruct (map_users_wf
              (fun r => if (user_id r =? uid)%Z
                        then {| user_id := user_id r; tg_first_name := tg_first_name r;
                                name := name r; nickname := nickname r;
                                car_model := car_model r; car_number := car_number r;
                                lang := val; report_period := report_period r;
                                registered_at := registered_at r |}
                        else r) (users d)) as (H1 & H2 & H3).
  - intros r. destruct (user_id r =? uid)%Z; simpl; auto.
  - auto.
  - split; [exact H1|]. split; [exact H2|]. split; [exact H3|exact He].
Qed.

Lemma update_report_period_wf (d : db) (uid : Z) (val : str) :
  db_wf P d -> db_wf P (update_report_period d uid val).
Proof.
  intros (Hk & Hn & Hp & He).
  destruct (map_users_wf
              (fun r => if (user_id r =? uid)%Z
                        then {| user_id := user_id r; tg_first_name := tg_first_name r;
                                name := name r; nickname := nickname r;
                                car_model := car_model r; car_number := car_number r;
                                lang := lang r; report_period := val;
                                registered_at := registered_at r |}
                        else r) (users d)) as (H1 & H2 & H3).
  - intros r. destruct (user_id r =? uid)%Z; simpl; auto.
  - auto.
  - split; [exact H1|]. split; [exact H2|]. split; [exact H3|exact He].
Qed.

Lemma session_of_wf (w : world) (uid : Z) : world_wf P w -> session_wf (session_of w uid).
Proof.
  intros [_ Hs]. unfold session_of.
  destruct (w_fsm w !! uid) as [s|] eqn:E; simpl; [exact (Hs uid s E)|].
  intros H. discriminate H.
Qed.

Lemma put_session_wf (w : world) (uid : Z) (s : session) :
  world_wf P w -> session_wf s -> world_wf P (put_session w uid s).
Proof.
  intros [Hd Hs] Ha. split; [exact Hd|]. simpl.
  intros u s' Hu. destruct (decide (uid = u)) as [->|Hne].
  - rewrite lookup_insert_eq in Hu. now inversion Hu; subst.
  - rewrite lookup_insert_ne in Hu by exact Hne. exact (Hs u s' Hu).
Qed.

Lemma with_db_wf (w : world) (d : db) : world_wf P w -> db_wf P d -> world_wf P (with_db w d).
Proof. intros [_ Hs] Hd. split; assumption. Qed.

Lemma clear_wf (w : world) (uid : Z) : world_wf P w -> world_wf P (clear w uid).
Proof. intros H. apply put_session_wf; [exact H|]. intros E. discriminate E. Qed.

Lemma set_state_wf (w : world) (uid : Z) (st : fsm_state) :
  world_wf P w ->
  (st = AddExpense_waiting_for_type -> d_exp_amount (s_data (session_of w uid)) <> None) ->
  world_wf P (set_state w uid st).
Proof.
  intros H Hst. apply put_session_wf; [exact H|].
  intros E. simpl in *. apply Hst. congruence.
Qed.

Lemma update_data_wf (w : world) (uid : Z) (f : acc -> acc) :
  world_wf P w ->
  (forall a, d_exp_amount a <> None -> d_exp_amount (f a) <> None) ->
  world_wf P (update_data w uid f).
Proof.
  intros H Hf. apply put_session_wf; [exact H|].
  intros E. simpl in *. apply Hf. now apply (session_of_wf w uid H).
Qed.

Variable U : unicode.
Hypothesis HP : forall text,
    plate_re_match U (normalize_plate U text) = true -> P (normalize_plate U text).

Variable D : dtlib.
Variable mention_ok : str -> bool.

Lemma set_state_wf' (w : world) (uid : Z) (st : fsm_state) :
  world_wf P w ->
  match st with
  | AddExpense_waiting_for_type => d_exp_amount (s_data (session_of w uid)) <> None
  | _ => True
  end ->
  world_wf P (set_state w uid st).
Proof. intros H Hst. apply set_state_wf; [exact H|]. intros ->. exact Hst. Qed.

Lemma keeps_amount_name (v : str) (a : acc) :
  d_exp_amount a <> None -> d_exp_amount (set_name v a) <> None.
Proof. trivial. Qed.

Lemma keeps_amount_nickname (v : str) (a : acc) :
  d_exp_amount a <> None -> d_exp_amount (set_nickname v a) <> None.
Proof. trivial. Qed.

Lemma keeps_amount_car_model (v : str) (a : acc) :
  d_exp_amount a <> None -> d_exp_amount (set_car_model v a) <> None.
Proof. trivial. Qed.

Lemma keeps_amount_car_number (v : str) (a : acc) :
  d_exp_amount a <> None -> d_exp_amount (set_car_number v a) <> None.
Proof. trivial. Qed.

Lemma keeps_amount_exp_amount (v : float) (a : acc) :
  d_exp_amount a <> None -> d_exp_amount (set_exp_amount v a) <> None.
Proof. discriminate. Qed.

Lemma db_wf_of_world (w : world) : world_wf P w -> db_wf P (w_db w).
Proof. now intros [H _]. Qed.

Create HintDb bot_wf.

#[local] Hint Resolve set_state_wf' clear_wf with_db_wf insert_income_wf
  insert_expense_wf update_lang_wf update_report_period_wf update_data_wf
  keeps_amount_name keeps_amount_nickname keeps_amount_car_model
  keeps_amount_car_number keeps_amount_exp_amount db_wf_of_world : bot_wf.

Lemma step_wf (now : datetime D) (w : world) (ev : event) :
  world_wf P w -> world_wf P (fst (step U D mention_ok now w ev)).
Proof using HP.
  intros Hw. step_cases ev; try assumption; try solve [auto 7 with bot_wf].
  - (* the plate step *)
    apply clear_wf, with_db_wf; [auto with bot_wf|].
    apply save_user_wf; [auto with bot_wf|].
    unfold update_data. rewrite session_of_put. simpl.
    intros p [= <-]. apply HP.
    now apply negb_false_iff.
  - (* the expense amount step *)
    apply set_state_wf; [auto with bot_wf|].
    intros _. unfold update_data. rewrite session_of_put. simpl. discriminate.
Qed.

Lemma init_world_wf : world_wf P init_world.
Proof.
  split; [repeat split; try constructor|].
  - intros r1 r2 n [].
  - intros r p [].
  - intros uid s Hs. simpl in Hs. rewrite lookup_empty in Hs. discriminate.
Qed.

Lemma reachable_wf (w : world) : reachable U D mention_ok w -> world_wf P w.
Proof using HP.
  induction 1 as [|now w ev _ IH]; [exact init_world_wf|now apply step_wf].
Qed.

End WellFormed.

Section StoredPlates.

Variable U : unicode.
Hypothesis HU : unicode_facts U.

Lemma accepted_plate_shape (text : str) :
  plate_re_match U (normalize_plate U text) = true ->
  stored_plate U (normalize_plate U text).
Proof using HU.
  intros H. split; [|now exists text].
  pose proof (normalize_plate_stripped U HU text) as [_ Hend].
  destruct (normalize_plate U text) as [|l1 [|l2 [|d1 [|d2 [|d3 [|d4 [|l3 [|l4 rest]]]]]]]];
    try discriminate.
  revert H. unfold plate_re_match. rewrite !andb_true_iff.
  intros ((((((((H1 & H2) & H3) & H4) & H5) & H6) & H7) & H8) & Hrest).
  destruct rest as [|c [|c' rest]]; try discriminate.
  - exists l1, l2, d1, d2, d3, d4, l3, l4. repeat split; assumption.
  - apply N.eqb_eq in Hrest. subst c. simpl in Hend. discriminate Hend.
Qed.

End StoredPlates.

(* ================================================================= *)
(** ** Facts about every reachable world *)

Section ReachableFacts.

Variable U : unicode.
Variable D : dtlib.
Variable mention_ok : str -> bool.

(** X8: in every world the bot can reach, the users table has one row per
    user id, kept in the order of the ids, and no two rows hold the same
    nickname byte for byte. *)
Theorem users_table_keys (w : world) :
  reachable U D mention_ok w ->
  users_keyed (users (w_db w))
  /\ (forall r1 r2, In r1 (users (w_db w)) -> In r2 (users (w_db w)) ->
                    user_id r1 = user_id r2 -> r1 = r2)
  /\ (forall r1 r2 n, In r1 (users (w_db w)) -> In r2 (users (w_db w)) ->
                      nickname r1 = Some n -> nickname r2 = Some n -> r1 = r2).
Proof.
  intros Hr.
  destruct (reachable_wf (fun _ => True) U (fun _ _ => I) D mention_ok w Hr)
    as [(Hk & Hn & _ & _) _].
  split; [exact Hk|]. split.
  - intros r1 r2. now apply users_keyed_same_id.
  - intros r1 r2 n H1 H2 N1 N2.
    apply (users_keyed_same_id _ _ _ Hk H1 H2). exact (Hn r1 r2 n H1 H2 N1 N2).
Qed.

(** X9: in every reachable world the ids of the income rows, and those of
    the expense rows, grow strictly along the table and none exceeds the
    counter of its table, so the next row gets an id that no row has. *)
Theorem entry_ids_are_fresh (w : world) :
  reachable U D mention_ok w ->
  entries_numbered (w_db w)
  /\ (forall uid amount ts r,
        In r (incomes (w_db w)) ->
        (inc_id r < income_seq (insert_income (w_db w) uid amount ts))%Z)
  /\ (forall uid amount ty ts r,
        In r (expenses (w_db w)) ->
        (exp_id r < expense_seq (insert_expense (w_db w) uid amount ty ts))%Z).
Proof.
  intros Hr.
  destruct (reachable_wf (fun _ => True) U (fun _ _ => I) D mention_ok w Hr)
    as [(_ & _ & _ & He) _].
  split; [exact He|]. destruct He as (_ & H2 & _ & H4). split.
  - intros uid amount ts r Hin. simpl.
    pose proof (proj1 (List.Forall_forall _ _) H2 r Hin) as H. simpl in H. lia.
  - intros uid amount ty ts r Hin. simpl.
    pose proof (proj1 (List.Forall_forall _ _) H4 r Hin) as H. simpl in H. lia.
Qed.

(** X10: in every reachable world every income and every expense amount
    is greater than zero, and every stored nickname is free of white space
    at both ends. *)
Theorem ledger_amounts_positive (w : world) :
  reachable U D mention_ok w ->
  amounts_positive (w_db w)
  /\ forall r n, In r (users (w_db w)) -> nickname r = Some n -> stripped n.
Proof.
  intros Hr. destruct (reachable_ok U D mention_ok w Hr) as [[Hu Ha] _].
  split; [exact Ha|].
  intros r n Hin Hn. rewrite <- (Hu r n Hin Hn). apply strip_stripped.
Qed.

(** X11: in every reachable world a user who is at the category step has
    an amount greater than zero in the accumulator, so a category button
    pressed at that step always books the expense. *)
Theorem category_step_has_amount (now : datetime D) (w : world) (uid : Z) (ty : str) :
  reachable U D mention_ok w ->
  s_state (session_of w uid) = Some AddExpense_waiting_for_type ->
  exists amount,
    d_exp_amount (s_data (session_of w uid)) = Some amount
    /\ positive_amount amount
    /\ step U D mention_ok now w (CallbackQuery uid (lit "exp_type:" ++ ty))
       = (clear (with_db w (insert_expense (w_db w) uid amount ty (isoformat D now))) uid,
          [CallbackAnswered; ExpenseAdded amount ty]).
Proof.
  intros Hr Hst.
  pose proof (reachable_wf (fun _ => True) U (fun _ _ => I) D mention_ok w Hr) as Hwf.
  pose proof (session_of_wf _ w uid Hwf Hst) as Hsome.
  pose proof (session_of_ok w uid (reachable_ok U D mention_ok w Hr)) as [_ Hpos].
  destruct (d_exp_amount (s_data (session_of w uid))) as [amount|] eqn:Ea;
    [|congruence].
  exists amount. split; [reflexivity|]. split; [now apply Hpos|].
  unfold step, dispatch_callback. rewrite startswith_app.
  unfold exp_type_callback. rewrite Ea.
  replace (split_once 58 (lit "exp_type:" ++ ty)) with (lit "exp_type", Some ty)
    by reflexivity.
  reflexivity.
Qed.

Hypothesis HU : unicode_facts U.

(** X12: in every reachable world every stored plate is a normal form of
    [normalize_plate] and has exactly eight characters: two plate letters,
    four decimal digits, two plate letters. *)
Theorem stored_plates_are_shaped (w : world) (r : user_row) (p : str) :
  reachable U D mention_ok w ->
  In r (users (w_db w)) -> car_number r = Some p ->
  plate_shape U p /\ normalize_plate U p = p /\ plate_re_match U p = true.
Proof using HU.
  intros Hr Hin Hp.
  destruct (reachable_wf (stored_plate U) U (accepted_plate_shape U HU) D mention_ok w Hr)
    as [(_ & _ & Hplates & _) _].
  destruct (Hplates r p Hin Hp) as [Hshape [text ->]].
  split; [exact Hshape|]. split; [apply (normalize_plate_fixed U HU)|].
  destruct Hshape as (l1 & l2 & d1 & d2 & d3 & d4 & l3 & l4 & -> & H).
  destruct H as (H1 & H2 & H3 & H4 & H5 & H6 & H7 & H8).
  unfold plate_re_match. now rewrite H1, H2, H3, H4, H5, H6, H7, H8.
Qed.

End ReachableFacts.

Lemma reachable_ivan_world : reachable U0 D0 mention0 ivan_world.
Proof. apply reachable_run, reachable_init. Qed.

Lemma users_table_keys_witness : users_keyed (users (w_db ivan_world)).
Proof. exact (proj1 (users_table_keys U0 D0 mention0 ivan_world reachable_ivan_world)). Defined.

Lemma entry_ids_are_fresh_witness : entries_numbered (w_db ivan_world).
Proof. exact (proj1 (entry_ids_are_fresh U0 D0 mention0 ivan_world reachable_ivan_world)). Defined.

Lemma ledger_amounts_positive_witness : amounts_positive (w_db ivan_world).
Proof.
  exact (proj1 (ledger_amounts_positive U0 D0 mention0 ivan_world reachable_ivan_world)).
Defined.

Lemma category_step_has_amount_witness :
  exists amount,
    d_exp_amount (s_data (session_of ivan_choosing_category 1)) = Some amount
    /\ positive_amount amount
    /\ step U0 D0 mention0 (at_ 11 0) ivan_choosing_category
         (CallbackQuery 1 (lit "exp_type:" ++ lit "fuel"))
       = (clear (with_db ivan_choosing_category
                   (insert_expense (w_db ivan_choosing_category) 1 amount (lit "fuel")
                      (isoformat D0 (at_ 11 0)))) 1,
          [CallbackAnswered; ExpenseAdded amount (lit "fuel")]).
Proof.
  apply (category_step_has_amount U0 D0 mention0 (at_ 11 0) ivan_choosing_category 1
           (lit "fuel")).
  - apply reachable_run, reachable_init.
  - vm_compute. reflexivity.
Defined.

Lemma stored_plates_are_shaped_witness :
  plate_shape U0 (lit "BC1234AB") /\ normalize_plate U0 (lit "BC1234AB") = lit "BC1234AB"
  /\ plate_re_match U0 (lit "BC1234AB") = true.
Proof.
  apply (stored_plates_are_shaped U0 D0 mention0 U0_facts ivan_world
           {| user_id := 1; tg_first_name := lit "Ivan";
              name := Some (lit "Ivan"); nickname := Some (lit "ivan99");
              car_model := Some (lit "Toyota Corolla");
              car_number := Some (lit "BC1234AB");
              lang := lit "uk"; report_period := lit "weekly";
              registered_at := isoformat0 (at_ 10 4) |}).
  - exact reachable_ivan_world.
  - vm_compute. now left.
  - reflexivity.
Defined.

(* ================================================================= *)
(** ** What one update can and cannot change *)

Section OneUpdate.

Lemma db_appends_refl (d : db) : db_appends d d.
Proof. exists [], []. rewrite !app_nil_r. repeat split. simpl. lia. Qed.

Lemma db_appends_save_user (d : db) (uid : Z) (first : str) (data : acc) (now : str) :
  db_appends d (save_user d uid first data now).
Proof. exists [], []. simpl. rewrite !app_nil_r. repeat split. lia. Qed.

Lemma db_appends_update_lang (d : db) (uid : Z) (val : str) :
  db_appends d (update_lang d uid val).
Proof. exists [], []. simpl. rewrite !app_nil_r. repeat split. lia. Qed.

Lemma db_appends_update_report_period (d : db) (uid : Z) (val : str) :
  db_appends d (update_report_period d uid val).
Proof. exists [], []. simpl. rewrite !app_nil_r. repeat split. lia. Qed.

Lemma db_appends_insert_income (d : db) (uid : Z) (amount : float) (ts : str) :
  db_appends d (insert_income d uid amount ts).
Proof.
  exists [{| inc_id := income_seq d + 1; inc_user := uid; inc_amount := amount;
             inc_ts := ts; inc_note := None |}], [].
  simpl. rewrite app_nil_r. repeat split. lia.
Qed.

Lemma db_appends_insert_expense (d : db) (uid : Z) (amount : float) (ty ts : str) :
  db_appends d (insert_expense d uid amount ty ts).
Proof.
  exists [], [{| exp_id := expense_seq d + 1; exp_user := uid; exp_amount := amount;
                 exp_type := ty; exp_ts := ts; exp_note := None |}].
  simpl. rewrite app_nil_r. repeat split. lia.
Qed.

Variable U : unicode.
Variable D : dtlib.
Variable mention_ok : str -> bool.

(** X13: handling an update never touches the conversation of anyone but
    its sender: state and accumulator of every other user stay as they
    were. *)
Theorem other_sessions_untouched (now : datetime D) (w : world) (ev : event) (u : Z) :
  u <> sender ev ->
  w_fsm (fst (step U D mention_ok now w ev)) !! u = w_fsm w !! u
  /\ session_of (fst (step U D mention_ok now w ev)) u = session_of w u.
Proof.
  intros Hu.
  assert (H : w_fsm (fst (step U D mention_ok now w ev)) !! u = w_fsm w !! u).
  { revert Hu. step_cases ev; intros Hu;
      unfold clear, set_state, update_data, put_session, with_db; cbn [w_fsm];
      repeat rewrite lookup_insert_ne by congruence; reflexivity. }
  split; [exact H|]. unfold session_of. now rewrite H.
Qed.

(** X14: handling an update never removes or alters a ledger entry: the
    income and expense tables afterwards are the tables before, with at
    most one new row at the end of one of them. *)
Theorem entries_are_append_only (now : datetime D) (w : world) (ev : event) :
  db_appends (w_db w) (w_db (fst (step U D mention_ok now w ev))).
Proof.
  step_cases ev;
    unfold clear, set_state, update_data, put_session, with_db; cbn [w_db];
    first [ apply db_appends_refl
          | apply db_appends_save_user
          | apply db_appends_insert_income
          | apply db_appends_insert_expense
          | apply db_appends_update_lang
          | apply db_appends_update_report_period ].
Qed.

End OneUpdate.

Lemma other_sessions_untouched_witness :
  session_of (fst (step U0 D0 mention0 (at_ 11 0) ivan_choosing_category
                     (Message 7 (lit "Anna") (lit "/start")))) 1
  = session_of ivan_choosing_category 1.
Proof.
  apply (other_sessions_untouched U0 D0 mention0 (at_ 11 0) ivan_choosing_category
           (Message 7 (lit "Anna") (lit "/start")) 1).
  discriminate.
Defined.

(* ================================================================= *)
(** ** Whole conversations *)

Section Flows.

Lemma session_of_set_state (w : world) (uid : Z) (st : fsm_state) :
  session_of (set_state w uid st) uid
  = {| s_state := Some st; s_data := s_data (session_of w uid) |}.
Proof. unfold set_state. apply session_of_put. Qed.

Lemma session_of_update_data (w : world) (uid : Z) (f : acc -> acc) :
  session_of (update_data w uid f) uid
  = {| s_state := s_state (session_of w uid); s_data := f (s_data (session_of w uid)) |}.
Proof. unfold update_data. apply session_of_put. Qed.

Lemma session_of_clear (w : world) (uid : Z) : session_of (clear w uid) uid = default_session.
Proof. unfold clear. apply session_of_put. Qed.

Lemma session_of_with_db (w : world) (d : db) (uid : Z) :
  session_of (with_db w d) uid = session_of w uid.
Proof. reflexivity. Qed.

Variable U : unicode.
Variable D : dtlib.
Variable mention_ok : str -> bool.

(** Rewrites the state tests of a dispatch, given the state [E]. *)
Ltac route E :=
  repeat first
    [ rewrite (in_state_true _ _ _ E)
    | rewrite in_state_false by (rewrite E; discriminate) ].

Lemma step_at_name (now : datetime D) (w : world) (uid : Z) (first text : str) :
  is_start_command mention_ok text = false ->
  s_state (session_of w uid) = Some Registration_waiting_for_name ->
  step U D mention_ok now w (Message uid first text) = process_name w uid text.
Proof. intros Hs E. unfold step, dispatch_message. rewrite Hs. now route E. Qed.

Lemma step_at_nickname (now : datetime D) (w : world) (uid : Z) (first text : str) :
  is_start_command mention_ok text = false ->
  s_state (session_of w uid) = Some Registration_waiting_for_nickname ->
  step U D mention_ok now w (Message uid first text) = process_nickname w uid text.
Proof. intros Hs E. unfold step, dispatch_message. rewrite Hs. now route E. Qed.

Lemma step_at_car_model (now : datetime D) (w : world) (uid : Z) (first text : str) :
  is_start_command mention_ok text = false ->
  s_state (session_of w uid) = Some Registration_waiting_for_car_model ->
  step U D mention_ok now w (Message uid first text) = process_car_model w uid text.
Proof. intros Hs E. unfold step, dispatch_message. rewrite Hs. now route E. Qed.

Lemma step_at_car_number (now : datetime D) (w : world) (uid : Z) (first text : str) :
  is_start_command mention_ok text = false ->
  s_state (session_of w uid) = Some Registration_waiting_for_car_number ->
  step U D mention_ok now w (Message uid first text)
  = process_car_number U D now w uid first text.
Proof. intros Hs E. unfold step, dispatch_message. rewrite Hs. now route E. Qed.

Lemma lookup_saved_user (d : db) (uid : Z) (first : str) (data : acc) (now : str) :
  lookup_user (save_user d uid first data now) uid
  = Some {| user_id := uid; tg_first_name := first;
            name := d_name data; nickname := d_nickname data;
            car_model := d_car_model data; car_number := d_car_number data;
            lang := lit "uk"; report_period := lit "weekly"; registered_at := now |}.
Proof.
  unfold lookup_user, save_user; simpl.
  match goal with
  | |- context [insert_row ?row _] =>
      exact (find_insert_row row _ (survivors_have_other_ids row (users d)))
  end.
Qed.

(** The plate step, from the car-number state, with everything the
    accumulator holds. *)
Lemma plate_step_saves (now : datetime D) (w : world) (uid : Z) (first text : str) :
  plate_re_match U (normalize_plate U text) = true ->
  let out := process_car_number U D now w uid first text in
  snd out = [RegistrationDone]
  /\ session_of (fst out) uid = default_session
  /\ lookup_user (w_db (fst out)) uid
     = Some {| user_id := uid; tg_first_name := first;
               name := d_name (s_data (session_of w uid));
               nickname := d_nickname (s_data (session_of w uid));
               car_model := d_car_model (s_data (session_of w uid));
               car_number := Some (normalize_plate U text);
               lang := lit "uk"; report_period := lit "weekly";
               registered_at := isoformat D now |}.
Proof.
  intros Hm. unfold process_car_number. rewrite Hm. cbn [negb fst snd].
  split; [reflexivity|]. split; [apply session_of_clear|].
  cbn [w_db clear put_session with_db]. rewrite lookup_saved_user.
  now rewrite session_of_update_data.
Qed.

(** X15: a user at the name step who sends a name, a nickname that no
    stored user holds, a car model and a plate of the right form (none of
    them a /start command) is prompted three times and then registered:
    the conversation is reset and the user's row holds the trimmed name,
    nickname and model, the normalised plate, the default language and
    report period, and the time of the last message. *)
Theorem registration_completes (t1 t2 t3 t4 : datetime D) (w : world) (uid : Z)
    (first name_text nick_text model_text plate_text : str) :
  s_state (session_of w uid) = Some Registration_waiting_for_name ->
  is_start_command mention_ok name_text = false ->
  is_start_command mention_ok nick_text = false ->
  is_start_command mention_ok model_text = false ->
  is_start_command mention_ok plate_text = false ->
  nickname_exists (w_db w) (strip nick_text) = false ->
  plate_re_match U (normalize_plate U plate_text) = true ->
  let evs := [ (t1, Message uid first name_text); (t2, Message uid first nick_text);
               (t3, Message uid first model_text); (t4, Message uid first plate_text) ] in
  transcript U D mention_ok w evs
  = [[AskNickname]; [AskCarModel]; [AskCarNumber]; [RegistrationDone]]
  /\ session_of (run U D mention_ok w evs) uid = default_session
  /\ lookup_user (w_db (run U D mention_ok w evs)) uid
     = Some {| user_id := uid; tg_first_name := first;
               name := Some (strip name_text); nickname := Some (strip nick_text);
               car_model := Some (strip model_text);
               car_number := Some (normalize_plate U plate_text);
               lang := lit "uk"; report_period := lit "weekly";
               registered_at := isoformat D t4 |}.
Proof.
  intros E0 S1 S2 S3 S4 Hfree Hplate evs. unfold evs. cbn [transcript run].
  rewrite (step_at_name t1 w uid first name_text S1 E0).
  unfold process_name. cbn [fst snd].
  set (w1 := set_state (update_data w uid (set_name (strip name_text))) uid
               Registration_waiting_for_nickname).
  assert (E1 : session_of w1 uid
               = {| s_state := Some Registration_waiting_for_nickname;
                    s_data := set_name (strip name_text) (s_data (session_of w uid)) |}).
  { unfold w1. now rewrite session_of_set_state, session_of_update_data. }
  rewrite (step_at_nickname t2 w1 uid first nick_text S2) by now rewrite E1.
  unfold process_nickname.
  assert (nickname_exists (w_db w1) (strip nick_text) = false) as -> by exact Hfree.
  cbn [fst snd].
  set (w2 := set_state (update_data w1 uid (set_nickname (strip nick_text))) uid
               Registration_waiting_for_car_model).
  assert (E2 : session_of w2 uid
               = {| s_state := Some Registration_waiting_for_car_model;
                    s_data := set_nickname (strip nick_text)
                                (set_name (strip name_text) (s_data (session_of w uid))) |}).
  { unfold w2. now rewrite session_of_set_state, session_of_update_data, E1. }
  rewrite (step_at_car_model t3 w2 uid first model_text S3) by now rewrite E2.
  unfold process_car_model. cbn [fst snd].
  set (w3 := set_state (update_data w2 uid (set_car_model (strip model_text))) uid
               Registration_waiting_for_car_number).
  assert (E3 : session_of w3 uid
               = {| s_state := Some Registration_waiting_for_car_number;
                    s_data := set_car_model (strip model_text)
                                (set_nickname (strip nick_text)
                                   (set_name (strip name_text)
                                      (s_data (session_of w uid)))) |}).
  { unfold w3. now rewrite session_of_set_state, session_of_update_data, E2. }
  rewrite (step_at_car_number t4 w3 uid first plate_text S4) by now rewrite E3.
  destruct (plate_step_saves t4 w3 uid first plate_text Hplate) as (H1 & H2 & H3).
  rewrite H1. split; [reflexivity|]. split; [exact H2|].
  rewrite H3, E3. reflexivity.
Qed.

(** X16: the button "edit:car", then a car model and a plate of the right
    form, rewrite the user's whole row from the accumulator: the name and
    the nickname become whatever the accumulator held when the button was
    pressed, NULL for a user whose earlier conversation was completed,
    and the language and report period return to their defaults. *)
Theorem edit_car_rewrites_row (t1 t2 t3 : datetime D) (w : world) (uid : Z)
    (first model_text plate_text : str) :
  is_start_command mention_ok model_text = false ->
  is_start_command mention_ok plate_text = false ->
  plate_re_match U (normalize_plate U plate_text) = true ->
  let evs := [ (t1, CallbackQuery uid (lit "edit:car"));
               (t2, Message uid first model_text);
               (t3, Message uid first plate_text) ] in
  transcript U D mention_ok w evs
  = [[CallbackAnswered; AskNewCar]; [AskCarNumber]; [RegistrationDone]]
  /\ lookup_user (w_db (run U D mention_ok w evs)) uid
     = Some {| user_id := uid; tg_first_name := first;
               name := d_name (s_data (session_of w uid));
               nickname := d_nickname (s_data (session_of w uid));
               car_model := Some (strip model_text);
               car_number := Some (normalize_plate U plate_text);
               lang := lit "uk"; report_period := lit "weekly";
               registered_at := isoformat D t3 |}.
Proof.
  intros S2 S3 Hplate evs. unfold evs. cbn [transcript run].
  change (step U D mention_ok t1 w (CallbackQuery uid (lit "edit:car")))
    with (set_state w uid Registration_waiting_for_car_model,
          [CallbackAnswered; AskNewCar]).
  cbn [fst snd].
  set (w1 := set_state w uid Registration_waiting_for_car_model).
  assert (E1 : session_of w1 uid
               = {| s_state := Some Registration_waiting_for_car_model;
                    s_data := s_data (session_of w uid) |})
    by (unfold w1; now rewrite session_of_set_state).
  rewrite (step_at_car_model t2 w1 uid first model_text S2) by now rewrite E1.
  unfold process_car_model. cbn [fst snd].
  set (w2 := set_state (update_data w1 uid (set_car_model (strip model_text))) uid
               Registration_waiting_for_car_number).
  assert (E2 : session_of w2 uid
               = {| s_state := Some Registration_waiting_for_car_number;
                    s_data := set_car_model (strip model_text)
                                (s_data (session_of w uid)) |}).
  { unfold w2. now rewrite session_of_set_state, session_of_update_data, E1. }
  rewrite (step_at_car_number t3 w2 uid first plate_text S3) by now rewrite E2.
  destruct (plate_step_saves t3 w2 uid first plate_text Hplate) as (H1 & H2 & H3).
  rewrite H1. split; [reflexivity|]. rewrite H3, E2. reflexivity.
Qed.

(** X17: a message whose first word is /start is a command in every
    state: the accumulator is emptied and the tables are left alone; a
    registered user is greeted and is idle, anyone else is asked for a name
    and put at the name step. *)
Theorem start_resets (now : datetime D) (w : world) (uid : Z) (first text : str) :
  first_token text = lit "/start" ->
  let out := step U D mention_ok now w (Message uid first text) in
  w_db (fst out) = w_db w
  /\ s_data (session_of (fst out) uid) = empty_acc
  /\ (user_exists (w_db w) uid = true ->
      s_state (session_of (fst out) uid) = None /\ snd out = [WelcomeBack first])
  /\ (user_exists (w_db w) uid = false ->
      s_state (session_of (fst out) uid) = Some Registration_waiting_for_name
      /\ snd out = [AskName]).
Proof.
  intros Ht.
  assert (Hs : is_start_command mention_ok text = true)
    by (unfold is_start_command; now rewrite Ht).
  unfold step, dispatch_message. rewrite Hs. unfold cmd_start.
  change (user_exists (w_db (clear w uid)) uid) with (user_exists (w_db w) uid).
  destruct (user_exists (w_db w) uid); cbn [fst snd];
    rewrite ?session_of_set_state, ?session_of_clear; repeat split;
    try reflexivity; try discriminate.
Qed.

Lemma find_map_users (g : user_row -> user_row) (u : Z) (l : list user_row) :
  (forall r, user_id (g r) = user_id r) ->
  List.find (fun r => (user_id r =? u)%Z) (List.map g l)
  = option_map g (List.find (fun r => (user_id r =? u)%Z) l).
Proof.
  intros Hg. induction l as [|x l IH]; simpl; [reflexivity|].
  rewrite Hg. destruct (user_id x =? u)%Z; [reflexivity|exact IH].
Qed.

Lemma find_has_id (u : Z) (l : list user_row) (r : user_row) :
  List.find (fun r => (user_id r =? u)%Z) l = Some r -> user_id r = u.
Proof. intros H. apply List.find_some in H as [_ H]. now apply Z.eqb_eq. Qed.

(** X18: the payload "setlang:" followed by any text stores that text as
    the sender's language, and "setperiod:" does the same for the report
    period; no other column, no other user's row, no entry and no
    conversation changes.  For a sender without a row nothing is stored,
    and the confirmation is sent all the same. *)
Theorem settings_change_one_column (now : datetime D) (w : world) (uid : Z) (val : str) :
  let out1 := step U D mention_ok now w (CallbackQuery uid (lit "setlang:" ++ val)) in
  let out2 := step U D mention_ok now w (CallbackQuery uid (lit "setperiod:" ++ val)) in
  (snd out1 = [CallbackAnswered; LangSaved]
   /\ w_fsm (fst out1) = w_fsm w
   /\ incomes (w_db (fst out1)) = incomes (w_db w)
   /\ expenses (w_db (fst out1)) = expenses (w_db w)
   /\ lookup_user (w_db (fst out1)) uid
      = option_map (with_lang val) (lookup_user (w_db w) uid)
   /\ forall u, u <> uid -> lookup_user (w_db (fst out1)) u = lookup_user (w_db w) u)
  /\ (snd out2 = [CallbackAnswered; PeriodChanged]
      /\ w_fsm (fst out2) = w_fsm w
      /\ incomes (w_db (fst out2)) = incomes (w_db w)
      /\ expenses (w_db (fst out2)) = expenses (w_db w)
      /\ lookup_user (w_db (fst out2)) uid
         = option_map (with_report_period val) (lookup_user (w_db w) uid)
      /\ forall u, u <> uid -> lookup_user (w_db (fst out2)) u = lookup_user (w_db w) u).
Proof.
  change (step U D mention_ok now w (CallbackQuery uid (lit "setlang:" ++ val)))
    with (with_db w (update_lang (w_db w) uid val), [CallbackAnswered; LangSaved]).
  change (step U D mention_ok now w (CallbackQuery uid (lit "setperiod:" ++ val)))
    with (with_db w (update_report_period (w_db w) uid val),
          [CallbackAnswered; PeriodChanged]).
  cbn [fst snd with_db w_db w_fsm].
  assert (Hlook : forall (g h : user_row -> user_row) u,
             (forall r, user_id (g r) = user_id r) ->
             (forall r, user_id r = uid -> g r = h r) ->
             (forall r, user_id r <> uid -> g r = r) ->
             List.find (fun r => (user_id r =? u)%Z) (List.map g (users (w_db w)))
             = if (u =? uid)%Z
               then option_map h (List.find (fun r => (user_id r =? u)%Z) (users (w_db w)))
               else List.find (fun r => (user_id r =? u)%Z) (users (w_db w))).
  { intros g h u Hid Hg Hn. rewrite (find_map_users g u _ Hid).
    destruct (List.find (fun r => (user_id r =? u)%Z) (users (w_db w))) as [r|] eqn:E;
      [|now destruct (u =? uid)%Z].
    apply find_has_id in E. simpl.
    destruct (Z.eqb_spec u uid) as [->|Hne]; simpl.
    - now rewrite Hg.
    - rewrite Hn; [reflexivity|congruence]. }
  split; (split; [reflexivity|]; split; [reflexivity|]; split; [reflexivity|];
          split; [reflexivity|]); unfold lookup_user, update_lang, update_report_period;
    cbn [users].
  - split.
    + rewrite (Hlook _ (with_lang val) uid); [now rewrite Z.eqb_refl| | |];
        intros r; destruct (Z.eqb_spec (user_id r) uid); try reflexivity; congruence.
    + intros u Hu.
      rewrite (Hlook _ (with_lang val) u);
        [now apply Z.eqb_neq in Hu as ->| | |];
        intros r; destruct (Z.eqb_spec (user_id r) uid); try reflexivity; congruence.
  - split.
    + rewrite (Hlook _ (with_report_period val) uid); [now rewrite Z.eqb_refl| | |];
        intros r; destruct (Z.eqb_spec (user_id r) uid); try reflexivity; congruence.
    + intros u Hu.
      rewrite (Hlook _ (with_report_period val) u);
        [now apply Z.eqb_neq in Hu as ->| | |];
        intros r; destruct (Z.eqb_spec (user_id r) uid); try reflexivity; congruence.
Qed.

Lemma menu_is_no_command (menu : str) :
  match first_token menu with
  | c :: _ => (c =? 47)%N
  | [] => false
  end = false ->
  is_start_command mention_ok menu = false.
Proof.
  unfold is_start_command. destruct (first_token menu) as [|c rest]; [reflexivity|].
  intros ->. now destruct (split_once 64 rest).
Qed.

(** X19: a registered, idle user who presses "add income" and then sends
    an amount that the validator accepts (not a command and not the button
    text again) is prompted and then told the amount; one income row of
    that user, with the parsed amount and the time of the second message,
    is added at the end of the table, and the conversation is reset. *)
Theorem income_flow_books_one_row (t1 t2 : datetime D) (w : world) (uid : Z)
    (first text : str) :
  user_exists (w_db w) uid = true ->
  s_state (session_of w uid) = None ->
  is_valid_money U text = true ->
  is_start_command mention_ok text = false ->
  text <> MENU_INCOME ->
  let evs := [ (t1, Message uid first MENU_INCOME); (t2, Message uid first text) ] in
  exists v,
    parse_money U text = Some v /\ positive_amount v
    /\ transcript U D mention_ok w evs = [[AskIncomeAmount]; [IncomeAdded v]]
    /\ incomes (w_db (run U D mention_ok w evs))
       = incomes (w_db w)
         ++ [{| inc_id := income_seq (w_db w) + 1; inc_user := uid; inc_amount := v;
                inc_ts := isoformat D t2; inc_note := None |}]
    /\ expenses (w_db (run U D mention_ok w evs)) = expenses (w_db w)
    /\ session_of (run U D mention_ok w evs) uid = default_session.
Proof.
  intros Hreg E0 Hv Hs Hne evs.
  destruct (valid_money_parses U text Hv) as (v & Hp & Hpos).
  exists v. split; [exact Hp|]. split; [exact Hpos|].
  unfold evs. cbn [transcript run].
  assert (H1 : step U D mention_ok t1 w (Message uid first MENU_INCOME)
               = (set_state w uid AddIncome_waiting_for_amount, [AskIncomeAmount])).
  { unfold step, dispatch_message.
    rewrite (menu_is_no_command MENU_INCOME eq_refl). route E0.
    assert (str_eqb MENU_INCOME MENU_INCOME = true) as -> by now apply str_eqb_true.
    unfold add_income_start. now rewrite Hreg. }
  rewrite H1. cbn [fst snd].
  set (w1 := set_state w uid AddIncome_waiting_for_amount).
  assert (E1 : s_state (session_of w1 uid) = Some AddIncome_waiting_for_amount)
    by (unfold w1; now rewrite session_of_set_state).
  assert (H2 : step U D mention_ok t2 w1 (Message uid first text)
               = add_income_amount U D t2 w1 uid text).
  { unfold step, dispatch_message. rewrite Hs. route E1.
    assert (str_eqb text MENU_INCOME = false) as -> by now apply str_eqb_false.
    reflexivity. }
  rewrite H2. unfold add_income_amount. rewrite Hv, Hp. cbn [negb fst snd].
  split; [reflexivity|]. split; [reflexivity|]. split; [reflexivity|].
  apply session_of_clear.
Qed.

(** X20: a registered, idle user who presses "add expense", sends an
    accepted amount (not a command and not a button text) and presses a
    category button is prompted twice and then told the expense; one
    expense row of that user, with the parsed amount, the category of the
    button and the time of the button press, is added at the end of the
    table, and the conversation is reset. *)
Theorem expense_flow_books_one_row (t1 t2 t3 : datetime D) (w : world) (uid : Z)
    (first text ty : str) :
  user_exists (w_db w) uid = true ->
  s_state (session_of w uid) = None ->
  is_valid_money U text = true ->
  is_start_command mention_ok text = false ->
  text <> MENU_INCOME -> text <> MENU_EXPENSE ->
  let evs := [ (t1, Message uid first MENU_EXPENSE); (t2, Message uid first text);
               (t3, CallbackQuery uid (lit "exp_type:" ++ ty)) ] in
  exists v,
    parse_money U text = Some v /\ positive_amount v
    /\ transcript U D mention_ok w evs
       = [[AskExpenseAmount]; [AskExpenseType]; [CallbackAnswered; ExpenseAdded v ty]]
    /\ expenses (w_db (run U D mention_ok w evs))
       = expenses (w_db w)
         ++ [{| exp_id := expense_seq (w_db w) + 1; exp_user := uid; exp_amount := v;
                exp_type := ty; exp_ts := isoformat D t3; exp_note := None |}]
    /\ incomes (w_db (run U D mention_ok w evs)) = incomes (w_db w)
    /\ session_of (run U D mention_ok w evs) uid = default_session.
Proof.
  intros Hreg E0 Hv Hs Hne1 Hne2 evs.
  destruct (valid_money_parses U text Hv) as (v & Hp & Hpos).
  exists v. split; [exact Hp|]. split; [exact Hpos|].
  unfold evs. cbn [transcript run].
  assert (H1 : step U D mention_ok t1 w (Message uid first MENU_EXPENSE)
               = (set_state w uid AddExpense_waiting_for_amount, [AskExpenseAmount])).
  { unfold step, dispatch_message.
    rewrite (menu_is_no_command MENU_EXPENSE eq_refl). route E0.
    assert (str_eqb MENU_EXPENSE MENU_INCOME = false) as ->
      by (apply str_eqb_false; discriminate).
    assert (str_eqb MENU_EXPENSE MENU_EXPENSE = true) as -> by now apply str_eqb_true.
    unfold add_expense_start. now rewrite Hreg. }
  rewrite H1. cbn [fst snd].
  set (w1 := set_state w uid AddExpense_waiting_for_amount).
  assert (E1 : s_state (session_of w1 uid) = Some AddExpense_waiting_for_amount)
    by (unfold w1; now rewrite session_of_set_state).
  assert (H2 : step U D mention_ok t2 w1 (Message uid first text)
               = (set_state (update_data w1 uid (set_exp_amount v)) uid
                    AddExpense_waiting_for_type, [AskExpenseType])).
  { unfold step, dispatch_message. rewrite Hs. route E1.
    assert (str_eqb text MENU_INCOME = false) as -> by now apply str_eqb_false.
    assert (str_eqb text MENU_EXPENSE = false) as -> by now apply str_eqb_false.
    unfold add_expense_amount. now rewrite Hv, Hp. }
  rewrite H2. cbn [fst snd].
  set (w2 := set_state (update_data w1 uid (set_exp_amount v)) uid
               AddExpense_waiting_for_type).
  assert (E2 : d_exp_amount (s_data (session_of w2 uid)) = Some v).
  { unfold w2. now rewrite session_of_set_state, session_of_update_data. }
  assert (H3 : step U D mention_ok t3 w2 (CallbackQuery uid (lit "exp_type:" ++ ty))
               = (clear (with_db w2 (insert_expense (w_db w2) uid v ty (isoformat D t3))) uid,
                  [CallbackAnswered; ExpenseAdded v ty])).
  { unfold step, dispatch_callback. rewrite startswith_app.
    unfold exp_type_callback. rewrite E2.
    replace (split_once 58 (lit "exp_type:" ++ ty)) with (lit "exp_type", Some ty)
      by reflexivity.
    reflexivity. }
  rewrite H3. cbn [fst snd].
  split; [reflexivity|]. split; [reflexivity|]. split; [reflexivity|].
  apply session_of_clear.
Qed.

End Flows.

Lemma registration_completes_witness :
  lookup_user
    (w_db (run U0 D0 mention0 anna_asked_name
             [ (at_ 9 1, Message 7 (lit "Anna") (lit " Anna "));
               (at_ 9 2, Message 7 (lit "Anna") (lit "anna7"));
               (at_ 9 3, Message 7 (lit "Anna") (lit "Skoda Octavia"));
               (at_ 9 4, Message 7 (lit "Anna") (lit "aa 0001 aa")) ])) 7
  = Some {| user_id := 7; tg_first_name := lit "Anna";
            name := Some (strip (lit " Anna ")); nickname := Some (strip (lit "anna7"));
            car_model := Some (strip (lit "Skoda Octavia"));
            car_number := Some (normalize_plate U0 (lit "aa 0001 aa"));
            lang := lit "uk"; report_period := lit "weekly";
            registered_at := isoformat D0 (at_ 9 4) |}.
Proof.
  apply (registration_completes U0 D0 mention0 (at_ 9 1) (at_ 9 2) (at_ 9 3) (at_ 9 4)
           anna_asked_name 7 (lit "Anna") (lit " Anna ") (lit "anna7")
           (lit "Skoda Octavia") (lit "aa 0001 aa"));
    vm_compute; reflexivity.
Defined.

Lemma edit_car_rewrites_row_witness :
  lookup_user
    (w_db (run U0 D0 mention0 ivan_world
             [ (at_ 11 0, CallbackQuery 1 (lit "edit:car"));
               (at_ 11 1, Message 1 (lit "Ivan") (lit "Renault Logan"));
               (at_ 11 2, Message 1 (lit "Ivan") (lit "AA0001AA")) ])) 1
  = Some {| user_id := 1; tg_first_name := lit "Ivan";
            name := d_name (s_data (session_of ivan_world 1));
            nickname := d_nickname (s_data (session_of ivan_world 1));
            car_model := Some (strip (lit "Renault Logan"));
            car_number := Some (normalize_plate U0 (lit "AA0001AA"));
            lang := lit "uk"; report_period := lit "weekly";
            registered_at := isoformat D0 (at_ 11 2) |}.
Proof.
  apply (edit_car_rewrites_row U0 D0 mention0 (at_ 11 0) (at_ 11 1) (at_ 11 2)
           ivan_world 1 (lit "Ivan") (lit "Renault Logan") (lit "AA0001AA"));
    vm_compute; reflexivity.
Defined.

Lemma start_resets_witness :
  w_db (fst (step U0 D0 mention0 (at_ 11 0) ivan_choosing_category
               (Message 1 (lit "Ivan") (lit "/start now"))))
  = w_db ivan_choosing_category.
Proof.
  apply (start_resets U0 D0 mention0 (at_ 11 0) ivan_choosing_category 1 (lit "Ivan")
           (lit "/start now")).
  reflexivity.
Defined.

Lemma income_flow_books_one_row_witness :
  let w := run U0 D0 mention0 init_world ivan_registers in
  let evs := [ (at_ 10 5, Message 1 (lit "Ivan") MENU_INCOME);
               (at_ 10 6, Message 1 (lit "Ivan") (lit "100,50")) ] in
  exists v,
    parse_money U0 (lit "100,50") = Some v /\ positive_amount v
    /\ transcript U0 D0 mention0 w evs = [[AskIncomeAmount]; [IncomeAdded v]]
    /\ incomes (w_db (run U0 D0 mention0 w evs))
       = incomes (w_db w)
         ++ [{| inc_id := income_seq (w_db w) + 1; inc_user := 1; inc_amount := v;
                inc_ts := isoformat D0 (at_ 10 6); inc_note := None |}]
    /\ expenses (w_db (run U0 D0 mention0 w evs)) = expenses (w_db w)
    /\ session_of (run U0 D0 mention0 w evs) 1 = default_session.
Proof.
  apply (income_flow_books_one_row U0 D0 mention0 (at_ 10 5) (at_ 10 6)
           (run U0 D0 mention0 init_world ivan_registers) 1 (lit "Ivan") (lit "100,50"));
    try (vm_compute; reflexivity); discriminate.
Defined.

Lemma expense_flow_books_one_row_witness :
  let w := run U0 D0 mention0 init_world ivan_registers in
  let evs := [ (at_ 10 5, Message 1 (lit "Ivan") MENU_EXPENSE);
               (at_ 10 6, Message 1 (lit "Ivan") (lit "50.00"));
               (at_ 10 7, CallbackQuery 1 (lit "exp_type:" ++ lit "fuel")) ] in
  exists v,
    parse_money U0 (lit "50.00") = Some v /\ positive_amount v
    /\ transcript U0 D0 mention0 w evs
       = [[AskExpenseAmount]; [AskExpenseType]; [CallbackAnswered; ExpenseAdded v (lit "fuel")]]
    /\ expenses (w_db (run U0 D0 mention0 w evs))
       = expenses (w_db w)
         ++ [{| exp_id := expense_seq (w_db w) + 1; exp_user := 1; exp_amount := v;
                exp_type := lit "fuel"; exp_ts := isoformat D0 (at_ 10 7);
                exp_note := None |}]
    /\ incomes (w_db (run U0 D0 mention0 w evs)) = incomes (w_db w)
    /\ session_of (run U0 D0 mention0 w evs) 1 = default_session.
Proof.
  apply (expense_flow_books_one_row U0 D0 mention0 (at_ 10 5) (at_ 10 6) (at_ 10 7)
           (run U0 D0 mention0 init_world ivan_registers) 1 (lit "Ivan") (lit "50.00")
           (lit "fuel"));
    try (vm_compute; reflexivity); discriminate.
Defined.

Lemma get_top_drivers_ordered_witness :
  (List.length (get_top_drivers (w_db ivan_world) 10) <= Z.to_nat 10)%nat.
Proof.
  apply (proj1 (proj2 (proj2 (proj2 (get_top_drivers_ordered (w_db ivan_world) 10))))).
  lia.
Defined.

Lemma settings_change_one_column_witness :
  lookup_user
    (w_db (fst (step U0 D0 mention0 (at_ 11 0) ivan_world
                  (CallbackQuery 7 (lit "setlang:" ++ lit "en"))))) 1
  = lookup_user (w_db ivan_world) 1.
Proof.
  apply (proj1 (settings_change_one_column U0 D0 mention0 (at_ 11 0) ivan_world 7 (lit "en"))).
  discriminate.
Defined.
